(** * The NYC-taxi MLOps pipeline script, [mlops/nyc_taxi/src/mlops_pipeline.py]

    A shallow embedding of the script's own logic:
    - the dataset lookup at the head of [construct_pipeline],
    - the wiring of the six steps in [nyc_taxi_data_regression],
    - the module-level list [gl_pipeline_components],
    - submission, completion polling and error handling in
      [execute_pipeline].

    The Azure ML SDK, the file system and the clock are outside the script;
    their answers are taken as records of functions ([host], [ml_client],
    [service]) so that every statement quantifies over all of them. *)

From Stdlib Require Import ZArith String List Lia.
From stdpp Require Import base option list gmap strings.

Local Open Scope string_scope.
Local Open Scope Z_scope.

(* ===================================================================== *)
(** * Part I: the model *)
(* ===================================================================== *)

(** ** Python exceptions and results *)

(** An instance of a subclass of Python's [Exception]: its class name and
    its [str()].  Every failure of a call made by the script is of this
    kind, and each is matched by the clause [except Exception].  Exceptions
    outside [Exception] are the subject of "Runs that are interrupted". *)
Record exn := Exn { exn_class : string; exn_str : string }.

Inductive result (A : Type) : Type :=
| Ok (a : A)
| Raise (e : exn).
Arguments Ok {A} a.
Arguments Raise {A} e.

#[export] Instance result_ret : MRet result := fun A a => Ok a.
#[export] Instance result_bind : MBind result := fun A B k m =>
  match m with
  | Ok a => k a
  | Raise e => Raise e
  end.

Definition TypeError (msg : string) : exn := Exn "TypeError" msg.
Definition KeyError (key : string) : exn := Exn "KeyError" key.
Definition IndexError (msg : string) : exn := Exn "IndexError" msg.

(** ** JSON values as [json.load] returns them

    [null] is Python's [None], an object is a [dict], an array a [list].
    A number keeps its literal: the script never computes with one. *)
#[warnings="-register-all"] Inductive json : Type :=
| JNull
| JBool (b : bool)
| JNum (lit : string)
| JStr (s : string)
| JArr (items : list json)
| JObj (fields : gmap string json).

(** [key in container] for a string [key]. *)
Definition py_in (key : string) (container : json) : result bool :=
  match container with
  | JObj fields => Ok (bool_decide (is_Some (fields !! key)))
  | JStr s => Ok (bool_decide (is_Some (String.index 0 key s)))
  | JArr items =>
      Ok (existsb (fun x => match x with JStr s => String.eqb s key | _ => false end)
                  items)
  | _ => Raise (TypeError "argument is not iterable")
  end.

(** [container[key]] for a string [key]. *)
Definition py_getitem (container : json) (key : string) : result json :=
  match container with
  | JObj fields =>
      match fields !! key with
      | Some v => Ok v
      | None => Raise (KeyError key)
      end
  | _ => Raise (TypeError "indices must be integers")
  end.

(** [s == v] for a Python [str] [s]. *)
Definition py_str_eq (s : string) (v : json) : bool :=
  match v with
  | JStr t => String.eqb s t
  | _ => false
  end.

(** ** The dataset lookup of [construct_pipeline] (lines 101-107) *)

(** One turn of [for elem in data_config['datasets']]; [and] evaluates its
    right operand only when the left one is true. *)
Definition resolve_elem (deploy_environment : string) (dataset_name elem : json)
  : result json :=
  has_purpose ← py_in "DATA_PURPOSE" elem;
  has_env ← (if has_purpose : bool then py_in "ENV_NAME" elem else Ok false);
  if has_env : bool then
    env_name ← py_getitem elem "ENV_NAME";
    if py_str_eq deploy_environment env_name
    then py_getitem elem "DATASET_NAME"
    else Ok dataset_name
  else Ok dataset_name.

(** The loop, started from the current value of [dataset_name]. *)
Fixpoint resolve_loop (deploy_environment : string) (datasets : list json)
  (dataset_name : json) : result json :=
  match datasets with
  | [] => Ok dataset_name
  | elem :: rest =>
      dataset_name' ← resolve_elem deploy_environment dataset_name elem;
      resolve_loop deploy_environment rest dataset_name'
  end.

(** [dataset_name = None] followed by the loop. *)
Definition resolve_dataset_name (deploy_environment : string) (datasets : list json)
  : result json :=
  resolve_loop deploy_environment datasets JNull.

(** Entries that are JSON objects, as in the dataset config files. *)
Abbreviation entry := (gmap string json).

(** The entry's [ENV_NAME] is the target tag. *)
Definition env_matches (deploy_environment : string) (e : entry) : bool :=
  match e !! "ENV_NAME" with
  | Some v => py_str_eq deploy_environment v
  | None => false
  end.

(** The entry passes the guard of line 105 and the comparison of line 106. *)
Definition selects (deploy_environment : string) (e : entry) : bool :=
  bool_decide (is_Some (e !! "DATA_PURPOSE")) && env_matches deploy_environment e.

Definition dataset_of (e : entry) : json := default JNull (e !! "DATASET_NAME").

(** ** Components, steps and the job graph *)

(** What [load_component] returns, as far as the script touches it: the
    definition it was loaded from and its [environment] attribute. *)
Record component := Component { comp_source : string; environment : string }.

(** A value handed to the pipeline function: [None], a [str], or an
    [Input(type=..., path=...)]. *)
Inductive value : Type :=
| VNone
| VStr (s : string)
| VInput (type path : string).

(** What an input of a step, or an output of the pipeline, is bound to:
    a value, or [<step>.outputs.<port>] of an earlier step, the steps being
    numbered in the order in which they are invoked. *)
Inductive binding : Type :=
| Given (v : value)
| StepOutput (step : nat) (port : string).

Record step := Step { step_component : component; step_inputs : list (string * binding) }.

Record output := Output { out_binding : binding; out_mode : option string }.

Record pipeline_job := PipelineJob {
  job_steps : list step;
  job_outputs : list (string * output);
  display_name : option string;
  tags : list (string * string);
  default_compute : option string;
  force_rerun : option bool;
  default_datastore : option string }.

(** [gl_pipeline_components[i]]. *)
Definition gl_index (gl_pipeline_components : list component) (i : nat)
  : result component :=
  match gl_pipeline_components !! i with
  | Some c => Ok c
  | None => Raise (IndexError "list index out of range")
  end.

(** [nyc_taxi_data_regression] (lines 29-72), run on the current content of
    the module-level list.  Each [gl_pipeline_components[i](...)] adds one
    step; the returned dict names the pipeline's outputs. *)
Definition nyc_taxi_data_regression (gl_pipeline_components : list component)
  (pipeline_job_input model_name build_reference : value) : result pipeline_job :=
  c0 ← gl_index gl_pipeline_components 0;
  let prepare_sample_data := Step c0 [("raw_data", Given pipeline_job_input)] in
  c1 ← gl_index gl_pipeline_components 1;
  let transform_sample_data := Step c1 [("clean_data", StepOutput 0 "prep_data")] in
  c2 ← gl_index gl_pipeline_components 2;
  let train_with_sample_data :=
    Step c2 [("training_data", StepOutput 1 "transformed_data")] in
  c3 ← gl_index gl_pipeline_components 3;
  let predict_with_sample_data :=
    Step c3 [("model_input", StepOutput 2 "model_output");
             ("test_data", StepOutput 2 "test_data")] in
  c4 ← gl_index gl_pipeline_components 4;
  let score_with_sample_data :=
    Step c4 [("predictions", StepOutput 3 "predictions");
             ("model", StepOutput 2 "model_output")] in
  c5 ← gl_index gl_pipeline_components 5;
  let register_step :=
    Step c5 [("model_metadata", StepOutput 2 "model_metadata");
             ("model_name", Given model_name);
             ("score_report", StepOutput 4 "score_report");
             ("build_reference", Given build_reference)] in
  Ok {| job_steps := [prepare_sample_data; transform_sample_data;
                      train_with_sample_data; predict_with_sample_data;
                      score_with_sample_data; register_step];
        job_outputs :=
          [("pipeline_job_prepped_data", Output (StepOutput 0 "prep_data") None);
           ("pipeline_job_transformed_data",
             Output (StepOutput 1 "transformed_data") None);
           ("pipeline_job_trained_model", Output (StepOutput 2 "model_output") None);
           ("pipeline_job_test_data", Output (StepOutput 2 "test_data") None);
           ("pipeline_job_predictions", Output (StepOutput 3 "predictions") None);
           ("pipeline_job_score_report", Output (StepOutput 4 "score_report") None)];
        display_name := None;
        tags := [];
        default_compute := None;
        force_rerun := None;
        default_datastore := None |}.

(** An output-to-input edge: [out_port] of step [producer] feeds [in_port]
    of step [consumer]. *)
Record edge := Edge { producer : nat; out_port : string; consumer : nat; in_port : string }.

Definition step_edges (i : nat) (s : step) : list edge :=
  omap (fun '(input, b) =>
          match b with
          | StepOutput p port => Some (Edge p port i input)
          | Given _ => None
          end) (step_inputs s).

(** All edges of a job, by consuming step and then by argument order. *)
Definition edges (j : pipeline_job) : list edge :=
  concat (imap step_edges (job_steps j)).

(** The pairs of steps joined by at least one edge, without repetition. *)
Definition links (j : pipeline_job) : list (nat * nat) :=
  remove_dups ((fun e => (producer e, consumer e)) <$> edges j).

(** The wiring written in lines 41-63. *)
Definition nyc_taxi_edges : list edge :=
  [ Edge 0 "prep_data" 1 "clean_data";
    Edge 1 "transformed_data" 2 "training_data";
    Edge 2 "model_output" 3 "model_input";
    Edge 2 "test_data" 3 "test_data";
    Edge 3 "predictions" 4 "predictions";
    Edge 2 "model_output" 4 "model";
    Edge 2 "model_metadata" 5 "model_metadata";
    Edge 4 "score_report" 5 "score_report" ].

(** ** [construct_pipeline] (lines 75-152) *)

(** The machine the script runs on. *)
Record host := Host {
  (** [json.load(open(path))['datasets']], a JSON array; a missing or
      malformed file raises. *)
  read_datasets : string -> result (list json);
  getcwd : string;
  load_component : string -> result component;
  (** What the SDK raises, if anything, while line 134 builds the job from
      the components now in the list: [Input(...)], the [@pipeline] wrapper
      and the six component calls (a component may reject the keyword
      arguments it is given); [None] when it raises nothing. *)
  sdk_rejects : list component -> value -> value -> value -> option exn }.

(** The [ml_client] argument: [data.get(name=..., label=...)] answers with
    the [id] of the registered data asset. *)
Record ml_client := MlClient { data_get : json -> string -> result string }.

(** [os.path.join(a, b)] for a relative [b]. *)
Definition path_join (a b : string) : string :=
  if String.eqb a "" then b
  else if String.eqb (String.substring (String.length a - 1) 1 a) "/" then a ++ b
  else a ++ "/" ++ b.

Definition set_environment (environment_name : string) (c : component) : component :=
  {| comp_source := comp_source c; environment := environment_name |}.

(** [job.outputs.<name>.mode = mode]. *)
Definition set_output_mode (name mode : string) (outs : list (string * output))
  : list (string * output) :=
  (fun '(n, o) =>
     if String.eqb n name then (n, Output (out_binding o) (Some mode)) else (n, o))
  <$> outs.

(** The statements of [construct_pipeline] up to line 125: everything that
    can raise before the list is touched. *)
Definition load_components (h : host) (client : ml_client)
  (environment_name deploy_environment data_config_path : string)
  : result (string * list component) :=
  datasets ← read_datasets h data_config_path;
  dataset_name ← resolve_dataset_name deploy_environment datasets;
  registered_data_asset ← data_get client dataset_name "latest";
  let parent_dir := path_join (getcwd h) "mlops/nyc_taxi/components" in
  prepare_data ← load_component h (parent_dir ++ "/prep.yml");
  transform_data ← load_component h (parent_dir ++ "/transform.yml");
  train_model ← load_component h (parent_dir ++ "/train.yml");
  predict_result ← load_component h (parent_dir ++ "/predict.yml");
  score_data ← load_component h (parent_dir ++ "/score.yml");
  register_model ← load_component h (parent_dir ++ "/register.yml");
  Ok (registered_data_asset,
      set_environment environment_name <$>
        [prepare_data; transform_data; train_model;
         predict_result; score_data; register_model]).

(** [construct_pipeline], with the module-level list passed in and out. *)
Definition construct_pipeline (h : host)
  (cluster_name environment_name display_name' deploy_environment
     build_reference model_name data_config_path : string)
  (client : ml_client) (gl_pipeline_components : list component)
  : result pipeline_job * list component :=
  match load_components h client environment_name deploy_environment data_config_path with
  | Raise e => (Raise e, gl_pipeline_components)
  | Ok (asset_id, loaded) =>
      (* six [append]s, lines 127-132 *)
      let gl_pipeline_components := (gl_pipeline_components ++ loaded)%list in
      let built :=
        match sdk_rejects h gl_pipeline_components (VInput "uri_folder" asset_id)
                (VStr model_name) (VStr build_reference) with
        | Some e => Raise e
        | None =>
            job ← nyc_taxi_data_regression gl_pipeline_components
                    (VInput "uri_folder" asset_id) (VStr model_name)
                    (VStr build_reference);
            Ok {| job_steps := job_steps job;
                  job_outputs :=
                    set_output_mode "pipeline_job_prepped_data" "rw_mount"
                      (job_outputs job);
                  display_name := Some display_name';
                  tags := [("environment", deploy_environment);
                           ("build_reference", build_reference)];
                  default_compute := Some cluster_name;
                  force_rerun := Some true;
                  default_datastore := Some "workspaceblobstore" |}
        end in
      (* a failure of line 134 comes after the appends: they are not undone *)
      (built, gl_pipeline_components)
  end.

(** The module-level list when the module is loaded (line 25). *)
Definition gl_initial : list component := [].

(** ** [execute_pipeline] (lines 155-243) *)

(** A job as the service reports it. *)
Record job := Job { job_name : string; status : string }.

(** The remote service and the local file system during one run. *)
Record service := Service {
  (** [MLClient(DefaultAzureCredential(), subscription_id=..., ...)] *)
  new_client : string -> string -> string -> option exn;
  (** [client.jobs.create_or_update(pipeline_job, experiment_name=...)] *)
  create_or_update : pipeline_job -> string -> result job;
  (** [open(path, "w")] and [write(text)] *)
  write_text : string -> string -> option exn;
  (** the answer to the [n]-th call of [client.jobs.get(name)], from 0 *)
  jobs_get : nat -> string -> result job }.

(** What a run leaves behind: the lines printed, the total time slept, the
    number of calls of [client.jobs.get], the files written. *)
Record effects := Effects {
  printed : list string;
  slept : Z;
  fetches : nat;
  files : list (string * string) }.

Definition no_effects : effects := Effects [] 0 0%nat [].

(** Computations of the script: [None] when the fuel given to the [while]
    loop runs out, else a result and the effects so far. *)
Definition M (A : Type) : Type := effects -> option (result A * effects).

#[export] Instance M_ret : MRet M := fun A a s => Some (Ok a, s).
#[export] Instance M_bind : MBind M := fun A B k m s =>
  match m s with
  | Some (Ok a, s') => k a s'
  | Some (Raise e, s') => Some (Raise e, s')
  | None => None
  end.

Definition raise {A : Type} (e : exn) : M A := fun s => Some (Raise e, s).
Definition out_of_fuel {A : Type} : M A := fun _ => None.

(** [try: body  except Exception as ex: handler ex]. *)
Definition try_except {A : Type} (body : M A) (handler : exn -> M A) : M A :=
  fun s =>
    match body s with
    | Some (Raise ex, s') => handler ex s'
    | r => r
    end.

(** The effects after one more printed line. *)
Definition add_line (line : string) (s : effects) : effects :=
  Effects (printed s ++ [line])%list (slept s) (fetches s) (files s).

Definition print (line : string) : M unit := fun s => Some (Ok tt, add_line line s).

(** [time.sleep(d)] *)
Definition sleep (d : Z) : M unit := fun s =>
  Some (Ok tt, Effects (printed s) (slept s + d) (fetches s) (files s)).

Definition make_client (svc : service)
  (subscription_id resource_group_name workspace_name : string) : M unit := fun s =>
  match new_client svc subscription_id resource_group_name workspace_name with
  | Some e => Some (Raise e, s)
  | None => Some (Ok tt, s)
  end.

Definition submit (svc : service) (pj : pipeline_job) (experiment_name : string)
  : M job := fun s => Some (create_or_update svc pj experiment_name, s).

Definition write_file (svc : service) (path text : string) : M unit := fun s =>
  match write_text svc path text with
  | Some e => Some (Raise e, s)
  | None =>
      Some (Ok tt, Effects (printed s) (slept s) (fetches s) (files s ++ [(path, text)])%list)
  end.

(** [client.jobs.get(name)] *)
Definition get_job (svc : service) (name : string) : M job := fun s =>
  Some (jobs_get svc (fetches s) name,
        Effects (printed s) (slept s) (S (fetches s)) (files s)).

Definition total_wait_time : Z := 3600.

Definition job_status : list string :=
  [ "NotStarted"; "Queued"; "Starting"; "Preparing"; "Running"; "Finalizing";
    "Provisioning"; "CancelRequested"; "Failed"; "Canceled"; "NotResponding" ].

(** The test of lines 225-230. *)
Definition stops_polling (st : string) : bool :=
  String.eqb st "Failed" || String.eqb st "NotResponding"
  || String.eqb st "CancelRequested" || String.eqb st "Canceled".

(** How the [while] loop was left: its condition was false, the [break] of
    line 231, or the [break] of line 233. *)
Inductive exit_reason : Type := ConditionFalse | StatusBreak | TimeoutBreak.

(** The loop's variables when it is left. *)
Record loop_exit := LoopExit {
  last_job : job;
  last_wait_time : Z;
  reason : exit_reason }.

(** The [while] loop of lines 216-233; one unit of fuel per evaluation of
    its condition. *)
Fixpoint poll_loop (fuel : nat) (svc : service) (pipeline_job : job)
  (current_wait_time : Z) : M loop_exit :=
  match fuel with
  | O => out_of_fuel
  | S fuel' =>
      if bool_decide (status pipeline_job ∈ job_status) then
        if current_wait_time <=? total_wait_time then
          sleep 20;;
          pipeline_job ← get_job svc (job_name pipeline_job);
          print ("Job Status: " ++ status pipeline_job);;
          let current_wait_time := current_wait_time + 15 in
          if stops_polling (status pipeline_job)
          then mret (LoopExit pipeline_job current_wait_time StatusBreak)
          else poll_loop fuel' svc pipeline_job current_wait_time
        else mret (LoopExit pipeline_job current_wait_time TimeoutBreak)
      else mret (LoopExit pipeline_job current_wait_time ConditionFalse)
  end.

Definition job_failure : exn := Exn "Exception" "Sorry, exiting job with failure..".

(** The test of line 235. *)
Definition succeeded (st : string) : bool :=
  String.eqb st "Completed" || String.eqb st "Finished".

(** Lines 235-238, on the job the loop ended with. *)
Definition final_check (pipeline_job : job) : M unit :=
  if succeeded (status pipeline_job)
  then print "job completed"
  else raise job_failure.

(** Lines 200-238: the body of [if wait_for_completion == "True"]. *)
Definition wait_for_job (fuel : nat) (svc : service) (pipeline_job : job) : M unit :=
  ex ← poll_loop fuel svc pipeline_job 0;
  final_check (last_job ex).

(** Lines 183-197: client, submission, and the job name written out. *)
Definition submit_job (svc : service)
  (subscription_id resource_group_name workspace_name experiment_name : string)
  (pj : pipeline_job) (output_file : option string) : M job :=
  make_client svc subscription_id resource_group_name workspace_name;;
  pipeline_job ← submit svc pj experiment_name;
  print ("The job " ++ job_name pipeline_job ++ " has been submitted!");;
  match output_file with
  | Some path => write_file svc path (job_name pipeline_job)
  | None => mret tt
  end;;
  mret pipeline_job.

(** [wait_for_completion == "True"]; the flag is [None] when the command
    line does not give it. *)
Definition wants_wait (wait_for_completion : option string) : bool :=
  match wait_for_completion with
  | Some w => String.eqb w "True"
  | None => false
  end.

(** The [try] block, lines 183-238. *)
Definition try_block (fuel : nat) (svc : service)
  (subscription_id resource_group_name workspace_name experiment_name : string)
  (pj : pipeline_job) (wait_for_completion output_file : option string) : M unit :=
  pipeline_job ← submit_job svc subscription_id resource_group_name workspace_name
                   experiment_name pj output_file;
  if wants_wait wait_for_completion
  then wait_for_job fuel svc pipeline_job
  else mret tt.

Definition handler_line (ex : exn) : string :=
  "Oops! invalid credentials or error while creating ML environment.. Try again..."
  ++ " " ++ exn_str ex.

(** The [except] clause, lines 239-243: print, then [raise]. *)
Definition handler (ex : exn) : M unit :=
  print (handler_line ex);; raise ex.

Definition execute_pipeline (fuel : nat) (svc : service)
  (subscription_id resource_group_name workspace_name experiment_name : string)
  (pj : pipeline_job) (wait_for_completion output_file : option string) : M unit :=
  try_except
    (try_block fuel svc subscription_id resource_group_name workspace_name
       experiment_name pj wait_for_completion output_file)
    handler.

(** ** Runs that are interrupted

    [KeyboardInterrupt] and [SystemExit] are exceptions too, but they are
    not instances of [Exception], and the clause [except Exception] does
    not match them.  The script spends its time in [time.sleep(20)]; a run
    that the user interrupts there is described by the number of the status
    request, counted like the argument of [jobs_get], before which the
    interrupted sleep takes place. *)
Inductive base_exception : Type := KeyboardInterrupt | SystemExit.

(** How a run ends: with a result, which is a normal return or a raised
    instance of [Exception], or with an exception outside [Exception]. *)
Inductive outcome (A : Type) : Type :=
| Ended (r : result A)
| Interrupted (b : base_exception).
Arguments Ended {A} r.
Arguments Interrupted {A} b.

Definition MI (A : Type) : Type := effects -> option (outcome A * effects).

Definition bind_i {A B : Type} (m : MI A) (k : A -> MI B) : MI B := fun s =>
  match m s with
  | Some (Ended (Ok a), s') => k a s'
  | Some (Ended (Raise e), s') => Some (Ended (Raise e), s')
  | Some (Interrupted b, s') => Some (Interrupted b, s')
  | None => None
  end.

(** A computation that nothing interrupts. *)
Definition uninterrupted {A : Type} (m : M A) : MI A := fun s =>
  match m s with
  | Some (r, s') => Some (Ended r, s')
  | None => None
  end.

(** [time.sleep(d)], interrupted when it is the sleep before the status
    request number [interrupt]; the time slept until then is not counted. *)
Definition sleep_i (interrupt : option nat) (d : Z) : MI unit := fun s =>
  match interrupt with
  | Some k =>
      if Nat.eqb k (fetches s)
      then Some (Interrupted KeyboardInterrupt, s)
      else uninterrupted (sleep d) s
  | None => uninterrupted (sleep d) s
  end.

(** [try: body  except Exception as ex: handler ex]: an exception outside
    [Exception] passes the clause by. *)
Definition try_except_i {A : Type} (body : MI A) (handler : exn -> MI A) : MI A :=
  fun s =>
    match body s with
    | Some (Ended (Raise ex), s') => handler ex s'
    | r => r
    end.

(** The [while] loop of lines 216-233 in a run that may be interrupted. *)
Fixpoint poll_loop_i (fuel : nat) (interrupt : option nat) (svc : service)
  (pipeline_job : job) (current_wait_time : Z) : MI loop_exit :=
  match fuel with
  | O => fun _ => None
  | S fuel' =>
      if bool_decide (status pipeline_job ∈ job_status) then
        if current_wait_time <=? total_wait_time then
          bind_i (sleep_i interrupt 20) (fun _ =>
          bind_i (uninterrupted (get_job svc (job_name pipeline_job)))
            (fun pipeline_job =>
          bind_i (uninterrupted (print ("Job Status: " ++ status pipeline_job)))
            (fun _ =>
          let current_wait_time := current_wait_time + 15 in
          if stops_polling (status pipeline_job)
          then uninterrupted (mret (LoopExit pipeline_job current_wait_time StatusBreak))
          else poll_loop_i fuel' interrupt svc pipeline_job current_wait_time)))
        else uninterrupted (mret (LoopExit pipeline_job current_wait_time TimeoutBreak))
      else uninterrupted (mret (LoopExit pipeline_job current_wait_time ConditionFalse))
  end.

(** The [try] block, lines 183-238, in a run that may be interrupted. *)
Definition try_block_i (fuel : nat) (interrupt : option nat) (svc : service)
  (subscription_id resource_group_name workspace_name experiment_name : string)
  (pj : pipeline_job) (wait_for_completion output_file : option string) : MI unit :=
  bind_i (uninterrupted (submit_job svc subscription_id resource_group_name
                           workspace_name experiment_name pj output_file))
    (fun pipeline_job =>
  if wants_wait wait_for_completion
  then bind_i (poll_loop_i fuel interrupt svc pipeline_job 0)
         (fun ex => uninterrupted (final_check (last_job ex)))
  else uninterrupted (mret tt)).

(** [execute_pipeline] in a run that may be interrupted. *)
Definition execute_pipeline_i (fuel : nat) (interrupt : option nat) (svc : service)
  (subscription_id resource_group_name workspace_name experiment_name : string)
  (pj : pipeline_job) (wait_for_completion output_file : option string) : MI unit :=
  try_except_i
    (try_block_i fuel interrupt svc subscription_id resource_group_name workspace_name
       experiment_name pj wait_for_completion output_file)
    (fun ex => uninterrupted (handler ex)).

(** ** Sample inputs *)

Definition dev_entry : entry :=
  {[ "DATA_PURPOSE" := JStr "training"; "ENV_NAME" := JStr "dev";
     "DATASET_NAME" := JStr "nyc_taxi_dev" ]}.
Definition prod_entry : entry :=
  {[ "DATA_PURPOSE" := JStr "training"; "ENV_NAME" := JStr "prod";
     "DATASET_NAME" := JStr "nyc_taxi_prod" ]}.
(** An entry tagged for [dev] that has no [DATA_PURPOSE] key. *)
Definition untyped_dev_entry : entry :=
  {[ "ENV_NAME" := JStr "dev"; "DATASET_NAME" := JStr "nyc_taxi_scratch" ]}.
Definition dev_entry_v2 : entry :=
  {[ "DATA_PURPOSE" := JStr "training"; "ENV_NAME" := JStr "dev";
     "DATASET_NAME" := JStr "nyc_taxi_dev_v2" ]}.

Definition sample_components : list component :=
  (fun f => Component f "azureml:env:1") <$>
    ["prep.yml"; "transform.yml"; "train.yml"; "predict.yml"; "score.yml";
     "register.yml"].

(** A checkout at [/repo] whose config lists [prod] and [dev]. *)
Definition sample_host : host :=
  Host (fun _ => Ok (JObj <$> [prod_entry; dev_entry]))
       "/repo"
       (fun path => Ok (Component path ""))
       (fun _ _ _ _ => None).

Definition sample_client : ml_client :=
  MlClient (fun name _ =>
              match name with
              | JStr n => Ok ("azureml:" ++ n ++ ":1")
              | _ => Raise (Exn "ValidationException" "name is required")
              end).

(** A service that accepts the submission and answers the [n]-th status
    request with [answers n]. *)
Definition service_answering (answers : nat -> string) : service :=
  Service (fun _ _ _ => None)
          (fun _ _ => Ok (Job "job_1" "NotStarted"))
          (fun _ _ => None)
          (fun n name => Ok (Job name (answers n))).

Definition always_running : service := service_answering (fun _ => "Running").
Definition fails_on_third : service :=
  service_answering (fun n => if (n <? 2)%nat then "Running" else "Failed").
Definition completes_on_third : service :=
  service_answering (fun n => if (n <? 2)%nat then "Running" else "Completed").

Definition empty_job : pipeline_job := PipelineJob [] [] None [] None None None.

(** Two successive calls of [construct_pipeline] in one process, the first
    on the freshly loaded module. *)
Definition first_call : result pipeline_job * list component :=
  construct_pipeline sample_host "cpu-cluster" "azureml:env:1" "run 1" "dev" "build-1"
    "taxi" "config.json" sample_client gl_initial.
Definition second_call : result pipeline_job * list component :=
  construct_pipeline sample_host "cpu-cluster" "azureml:env:2" "run 2" "prod" "build-2"
    "taxi" "config.json" sample_client (snd first_call).

(** The job a call returned, or an empty one if it raised. *)
Definition returned_job (call : result pipeline_job * list component) : pipeline_job :=
  match fst call with
  | Ok pj => pj
  | Raise _ => empty_job
  end.

(** ** Values handed to the steps *)

(** The inputs of the steps that are bound to a value rather than to an
    output: the consuming step, the input's name and the value. *)
Definition step_givens (i : nat) (s : step) : list (nat * string * value) :=
  omap (fun '(input, b) =>
          match b with
          | Given v => Some (i, input, v)
          | StepOutput _ _ => None
          end) (step_inputs s).

Definition given_inputs (j : pipeline_job) : list (nat * string * value) :=
  concat (imap step_givens (job_steps j)).

(** ** [prepare_and_execute] (lines 246-342) *)

(** What [get_compute] returns, as far as the script reads it: [.name]. *)
Record compute := Compute { compute_name : string }.

(** What [get_environment] returns: [.name] and [.version]. *)
Record registered_environment := RegisteredEnvironment {
  env_name : string;
  env_version : string }.

(** The workspace client of line 295 and the two helpers imported from
    [mlops.common], which this file only calls. *)
Record platform := Platform {
  (** [MLClient(DefaultAzureCredential(), subscription_id, ...)] *)
  workspace_client : string -> string -> string -> result ml_client;
  get_compute :
    string -> string -> string -> string -> string -> string -> Z -> Z -> Z ->
    result compute;
  get_environment :
    string -> string -> string -> string -> string -> string -> string ->
    result registered_environment }.

(** The line printed at line 321. *)
Definition environment_line (environment : registered_environment) : string :=
  "Environment: " ++ env_name environment ++ ", version: " ++ env_version environment.

(** The environment name handed to [construct_pipeline] at line 325. *)
Definition environment_reference (environment : registered_environment) : string :=
  "azureml:" ++ env_name environment ++ ":" ++ env_version environment.

(** [prepare_and_execute], with the module-level list passed in and out and
    the effects of the run so far passed in. *)
Definition prepare_and_execute (fuel : nat) (p : platform) (h : host) (svc : service)
  (subscription_id resource_group_name workspace_name : string)
  (cluster_name cluster_size cluster_region : string)
  (min_instances max_instances idle_time_before_scale_down : Z)
  (env_base_image_name conda_path environment_name env_description : string)
  (wait_for_completion : option string)
  (display_name' experiment_name deploy_environment build_reference model_name : string)
  (output_file : option string) (data_config_path : string)
  (gl_pipeline_components : list component) (s : effects)
  : option (result unit * effects) * list component :=
  match workspace_client p subscription_id resource_group_name workspace_name with
  | Raise e => (Some (Raise e, s), gl_pipeline_components)
  | Ok client =>
  match get_compute p subscription_id resource_group_name workspace_name
          cluster_name cluster_size cluster_region
          min_instances max_instances idle_time_before_scale_down with
  | Raise e => (Some (Raise e, s), gl_pipeline_components)
  | Ok compute =>
  match get_environment p subscription_id resource_group_name workspace_name
          env_base_image_name conda_path environment_name env_description with
  | Raise e => (Some (Raise e, s), gl_pipeline_components)
  | Ok environment =>
      let s := add_line (environment_line environment) s in
      match construct_pipeline h (compute_name compute)
              (environment_reference environment) display_name' deploy_environment
              build_reference model_name data_config_path client
              gl_pipeline_components with
      | (Raise e, gl_pipeline_components) => (Some (Raise e, s), gl_pipeline_components)
      | (Ok pipeline_job, gl_pipeline_components) =>
          (execute_pipeline fuel svc subscription_id resource_group_name
             workspace_name experiment_name pipeline_job wait_for_completion
             output_file s,
           gl_pipeline_components)
      end
  end end end.

(** ** More sample inputs *)

(** A platform that hands out [sample_client], names the cluster as asked
    and registers every environment as version 3. *)
Definition sample_platform : platform :=
  Platform (fun _ _ _ => Ok sample_client)
           (fun _ _ _ cluster_name _ _ _ _ _ => Ok (Compute cluster_name))
           (fun _ _ _ _ _ environment_name _ =>
              Ok (RegisteredEnvironment environment_name "3")).

(** A checkout whose config file is missing. *)
Definition host_without_config : host :=
  Host (fun path => Raise (Exn "FileNotFoundError" path))
       "/repo"
       (fun path => Ok (Component path ""))
       (fun _ _ _ _ => None).

(** A checkout whose [register.yml] does not declare [build_reference]: the
    SDK rejects the call of line 58. *)
Definition host_with_old_register : host :=
  Host (fun _ => Ok (JObj <$> [prod_entry; dev_entry]))
       "/repo"
       (fun path => Ok (Component path ""))
       (fun _ _ _ _ =>
          Some (Exn "UnexpectedKeywordError" "unexpected keyword build_reference")).

(** A checkout without [score.yml]. *)
Definition host_without_score : host :=
  Host (fun _ => Ok (JObj <$> [prod_entry; dev_entry]))
       "/repo"
       (fun path =>
          if String.eqb path "/repo/mlops/nyc_taxi/components/score.yml"
          then Raise (Exn "FileNotFoundError" path)
          else Ok (Component path ""))
       (fun _ _ _ _ => None).

(** A tagged entry for [dev] that names no dataset. *)
Definition nameless_dev_entry : entry :=
  {[ "DATA_PURPOSE" := JStr "training"; "ENV_NAME" := JStr "dev" ]}.

Definition pauses_on_second : service :=
  service_answering (fun n => if (n <? 1)%nat then "Running" else "Paused").

(** A service whose job is already completed when the submission returns. *)
Definition completed_at_once : service :=
  Service (fun _ _ _ => None)
          (fun _ _ => Ok (Job "job_1" "Completed"))
          (fun _ _ => None)
          (fun _ name => Ok (Job name "Running")).

(** A service that refuses the submission. *)
Definition refuses_submission : service :=
  Service (fun _ _ _ => None)
          (fun _ _ => Raise (Exn "HttpResponseError" "quota exceeded"))
          (fun _ _ => None)
          (fun _ name => Ok (Job name "Running")).

(** The result and the effects of a run that ended. *)
Definition result_of (out : option (result unit * effects)) : result unit :=
  match out with
  | Some (r, _) => r
  | None => Ok tt
  end.
Definition effects_of (out : option (result unit * effects)) : effects :=
  match out with
  | Some (_, s') => s'
  | None => no_effects
  end.

(** The one file [execute_pipeline] may write: the job's name, at
    [output_file], once client and submission have succeeded. *)
Definition written_file (svc : service)
  (subscription_id resource_group_name workspace_name experiment_name : string)
  (pj : pipeline_job) (output_file : option string) : list (string * string) :=
  match new_client svc subscription_id resource_group_name workspace_name,
        create_or_update svc pj experiment_name,
        output_file with
  | None, Ok j, Some path =>
      match write_text svc path (job_name j) with
      | None => [(path, job_name j)]
      | Some _ => []
      end
  | _, _, _ => []
  end.

(** A platform on which no cluster can be had. *)
Definition platform_without_quota : platform :=
  Platform (fun _ _ _ => Ok sample_client)
           (fun _ _ _ _ _ _ _ _ _ => Raise (Exn "QuotaExceeded" "no cores left"))
           (fun _ _ _ _ _ environment_name _ =>
              Ok (RegisteredEnvironment environment_name "3")).

(** The call of [construct_pipeline] that [prepare_and_execute] makes on
    [sample_platform] for the cluster [cpu-cluster] and the environment
    [taxi-env]. *)
Definition prepared_call : result pipeline_job * list component :=
  construct_pipeline sample_host "cpu-cluster" "azureml:taxi-env:3" "run 1" "dev"
    "build-1" "taxi" "config.json" sample_client gl_initial.

(** A service whose file system refuses the output file. *)
Definition read_only_disk : service :=
  Service (fun _ _ _ => None)
          (fun _ _ => Ok (Job "job_1" "NotStarted"))
          (fun path _ => Some (Exn "PermissionError" path))
          (fun _ name => Ok (Job name "Completed")).

(* ===================================================================== *)
(** * Part II: properties *)
(* ===================================================================== *)

(** ** The dataset lookup *)

Example resolve_dev :
  resolve_dataset_name "dev" (JObj <$> [prod_entry; dev_entry]) = Ok (JStr "nyc_taxi_dev").
Proof. vm_compute. reflexivity. Qed.

Example resolve_test_absent :
  resolve_dataset_name "test" (JObj <$> [prod_entry; dev_entry]) = Ok JNull.
Proof. vm_compute. reflexivity. Qed.

Example resolve_non_object :
  resolve_dataset_name "dev" [JNum "3"] = Raise (TypeError "argument is not iterable").
Proof. reflexivity. Qed.

Lemma env_matches_spec (t : string) (e : entry) :
  env_matches t e = true <-> e !! "ENV_NAME" = Some (JStr t).
Proof.
  unfold env_matches. destruct (e !! "ENV_NAME") as [v|]; [|split; discriminate].
  destruct v; simpl; try (split; discriminate).
  rewrite String.eqb_eq. split; [intros ->; reflexivity | intros [= ->]; reflexivity].
Qed.

Lemma selects_env_matches (t : string) (e : entry) :
  selects t e = true -> env_matches t e = true.
Proof. unfold selects. intros H. apply andb_true_iff in H. tauto. Qed.

(** On an object, one turn of the loop either keeps the name or reads the
    entry's [DATASET_NAME]. *)
Lemma resolve_elem_object (t : string) (d : json) (e : entry) :
  resolve_elem t d (JObj e) =
  if selects t e then py_getitem (JObj e) "DATASET_NAME" else Ok d.
Proof.
  unfold resolve_elem, selects, env_matches, py_in, py_getitem.
  destruct (e !! "DATA_PURPOSE") as [p|]; destruct (e !! "ENV_NAME") as [v|];
    reflexivity.
Qed.

Lemma filter_selects (t : string) (cfg : list entry) :
  List.filter (selects t) cfg = List.filter (selects t) (List.filter (env_matches t) cfg).
Proof.
  induction cfg as [|e cfg IH]; [reflexivity|]. simpl.
  destruct (selects t e) eqn:Hs.
  - rewrite (selects_env_matches _ _ Hs). simpl. rewrite Hs. f_equal. exact IH.
  - destruct (env_matches t e); simpl; [rewrite Hs|]; exact IH.
Qed.

(** Last match wins: the loop ends with the [DATASET_NAME] of the last
    selected entry, or with the name it started from. *)
Lemma resolve_loop_last (t : string) (cfg : list entry) :
  (forall x, x ∈ cfg -> selects t x = true -> is_Some (x !! "DATASET_NAME")) ->
  forall d,
    resolve_loop t (JObj <$> cfg) d =
    Ok (from_option dataset_of d (last (List.filter (selects t) cfg))).
Proof.
  induction cfg as [|e cfg IH]; intros Hname d; [reflexivity|].
  rewrite fmap_cons. cbn [resolve_loop]. rewrite resolve_elem_object.
  assert (Hrest : forall x, x ∈ cfg -> selects t x = true -> is_Some (x !! "DATASET_NAME")).
  { intros x Hx. apply Hname. right. exact Hx. }
  cbn [List.filter]. destruct (selects t e) eqn:Hs.
  - destruct (Hname e (list_elem_of_here _ _) Hs) as [v Hv].
    unfold py_getitem. rewrite Hv. cbn. rewrite (IH Hrest v), last_cons.
    destruct (last (List.filter (selects t) cfg)); cbn; [reflexivity|].
    unfold dataset_of. rewrite Hv. reflexivity.
  - cbn. apply (IH Hrest).
Qed.

Lemma filter_nil_no_match (t : string) (cfg : list entry) :
  (forall x, x ∈ cfg -> env_matches t x = false) ->
  List.filter (selects t) cfg = [].
Proof.
  intros Hno. induction cfg as [|e cfg IH]; [reflexivity|]. cbn [List.filter].
  unfold selects at 1. rewrite (Hno e (list_elem_of_here _ _)), andb_false_r.
  apply IH. intros x Hx. apply Hno. right. exact Hx.
Qed.

(** C5, as stated, fails: an entry tagged [dev] without a [DATA_PURPOSE]
    key is the only one carrying the target tag, every entry carries
    [ENV_NAME], and yet the loop leaves the dataset name unset instead of
    selecting that entry's [DATASET_NAME]. *)
Lemma unique_match_without_purpose_is_skipped :
  ~ (forall (target : string) (cfg : list entry) (e : entry) (name : json),
        (forall x, x ∈ cfg -> is_Some (x !! "ENV_NAME")) ->
        List.filter (env_matches target) cfg = [e] ->
        e !! "DATASET_NAME" = Some name ->
        resolve_dataset_name target (JObj <$> cfg) = Ok name).
Proof.
  intros H.
  specialize (H "dev" [prod_entry; untyped_dev_entry] untyped_dev_entry
                (JStr "nyc_taxi_scratch")).
  assert (Hres : resolve_dataset_name "dev" (JObj <$> [prod_entry; untyped_dev_entry])
                 = Ok JNull) by (vm_compute; reflexivity).
  rewrite Hres in H. discriminate H.
  - intros x Hx. apply list_elem_of_In in Hx.
    destruct Hx as [<-|[<-|[]]]; vm_compute; eauto.
  - reflexivity.
  - reflexivity.
Qed.

(** C5, amended: when every entry carries [ENV_NAME], the target tag occurs
    in exactly one entry, and that entry also carries [DATA_PURPOSE] and
    [DATASET_NAME], the loop selects that entry's [DATASET_NAME]. *)
Theorem resolve_unique_match (target : string) (cfg : list entry) (e : entry)
  (name : json) :
  (forall x, x ∈ cfg -> is_Some (x !! "ENV_NAME")) ->
  List.filter (env_matches target) cfg = [e] ->
  is_Some (e !! "DATA_PURPOSE") ->
  e !! "DATASET_NAME" = Some name ->
  resolve_dataset_name target (JObj <$> cfg) = Ok name.
Proof.
  intros _ Hone Hpurpose Hname.
  assert (Hmatch : env_matches target e = true).
  { assert (Hin : In e (List.filter (env_matches target) cfg))
      by (rewrite Hone; left; reflexivity).
    apply filter_In in Hin. tauto. }
  assert (Hsel : List.filter (selects target) cfg = [e]).
  { rewrite filter_selects, Hone. cbn [List.filter]. unfold selects.
    rewrite Hmatch, bool_decide_eq_true_2 by exact Hpurpose. reflexivity. }
  unfold resolve_dataset_name. rewrite resolve_loop_last.
  - rewrite Hsel. cbn. unfold dataset_of. rewrite Hname. reflexivity.
  - intros x Hx Hs.
    assert (Hin : In x (List.filter (selects target) cfg))
      by (apply filter_In; split; [apply list_elem_of_In; exact Hx | exact Hs]).
    rewrite Hsel in Hin. destruct Hin as [<-|[]]. rewrite Hname. eauto.
Qed.

Lemma resolve_unique_match_witness :
  resolve_dataset_name "dev" (JObj <$> [prod_entry; dev_entry]) = Ok (JStr "nyc_taxi_dev").
Proof.
  apply (resolve_unique_match "dev" [prod_entry; dev_entry] dev_entry).
  - intros x Hx. apply list_elem_of_In in Hx.
    destruct Hx as [<-|[<-|[]]]; vm_compute; eauto.
  - reflexivity.
  - vm_compute. eauto.
  - reflexivity.
Defined.

(** C6: when no entry's [ENV_NAME] equals the target tag, the loop produces
    no match: it returns normally and the dataset name is still [None]. *)
Theorem resolve_absent_target (target : string) (cfg : list entry) :
  (forall x, x ∈ cfg -> x !! "ENV_NAME" <> Some (JStr target)) ->
  resolve_dataset_name target (JObj <$> cfg) = Ok JNull.
Proof.
  intros Habs.
  assert (Hno : forall x, x ∈ cfg -> env_matches target x = false).
  { intros x Hx. destruct (env_matches target x) eqn:Hm; [|reflexivity].
    apply env_matches_spec in Hm. destruct (Habs x Hx Hm). }
  unfold resolve_dataset_name. rewrite resolve_loop_last.
  - rewrite (filter_nil_no_match _ _ Hno). reflexivity.
  - intros x Hx Hs. apply selects_env_matches in Hs. rewrite (Hno x Hx) in Hs.
    discriminate Hs.
Qed.

Lemma resolve_absent_target_witness :
  resolve_dataset_name "test" (JObj <$> [prod_entry; dev_entry]) = Ok JNull.
Proof.
  apply (resolve_absent_target "test" [prod_entry; dev_entry]).
  intros x Hx. apply list_elem_of_In in Hx.
  destruct Hx as [<-|[<-|[]]]; vm_compute; discriminate.
Defined.

(** C7, as stated, fails: of two entries tagged [dev] the last one in file
    order has no [DATA_PURPOSE] key, and the loop ends with the first
    one's [DATASET_NAME]. *)
Lemma last_match_without_purpose_is_skipped :
  ~ (forall (target : string) (cfg : list entry) (e : entry) (name : json),
        (2 <= length (List.filter (env_matches target) cfg))%nat ->
        last (List.filter (env_matches target) cfg) = Some e ->
        e !! "DATASET_NAME" = Some name ->
        resolve_dataset_name target (JObj <$> cfg) = Ok name).
Proof.
  intros H.
  specialize (H "dev" [dev_entry; untyped_dev_entry] untyped_dev_entry
                (JStr "nyc_taxi_scratch")).
  assert (Hres : resolve_dataset_name "dev" (JObj <$> [dev_entry; untyped_dev_entry])
                 = Ok (JStr "nyc_taxi_dev")) by (vm_compute; reflexivity).
  rewrite Hres in H.
  assert (Hne : Ok (JStr "nyc_taxi_dev") <> Ok (JStr "nyc_taxi_scratch")) by discriminate.
  apply Hne, H.
  - vm_compute. lia.
  - reflexivity.
  - reflexivity.
Qed.

(** C7, amended: in a config with two or more entries whose [ENV_NAME] is
    the target tag, the loop selects the [DATASET_NAME] of the last entry,
    in file order, that carries [DATA_PURPOSE] and whose [ENV_NAME] is the
    target tag, provided each such entry carries [DATASET_NAME]; duplicate
    matches are not rejected. *)
Theorem resolve_last_match (target : string) (cfg : list entry) (e : entry)
  (name : json) :
  (2 <= length (List.filter (env_matches target) cfg))%nat ->
  (forall x, x ∈ cfg -> selects target x = true -> is_Some (x !! "DATASET_NAME")) ->
  last (List.filter (selects target) cfg) = Some e ->
  e !! "DATASET_NAME" = Some name ->
  resolve_dataset_name target (JObj <$> cfg) = Ok name.
Proof.
  intros _ Hnames Hlast Hname.
  unfold resolve_dataset_name. rewrite (resolve_loop_last _ _ Hnames), Hlast.
  cbn. unfold dataset_of. rewrite Hname. reflexivity.
Qed.

Lemma resolve_last_match_witness :
  resolve_dataset_name "dev" (JObj <$> [dev_entry; prod_entry; dev_entry_v2])
  = Ok (JStr "nyc_taxi_dev_v2").
Proof.
  apply (resolve_last_match "dev" [dev_entry; prod_entry; dev_entry_v2] dev_entry_v2).
  - vm_compute. lia.
  - intros x Hx _. apply list_elem_of_In in Hx.
    destruct Hx as [<-|[<-|[<-|[]]]]; vm_compute; eauto.
  - reflexivity.
  - reflexivity.
Defined.

(** A selected entry without [DATASET_NAME] stops the loop with [KeyError]. *)
Example resolve_missing_name :
  resolve_dataset_name "dev" [JObj {[ "DATA_PURPOSE" := JStr "x"; "ENV_NAME" := JStr "dev" ]}]
  = Raise (KeyError "DATASET_NAME").
Proof. vm_compute. reflexivity. Qed.

(** ** The job graph *)

Lemma gl_index_take (gl : list component) (i : nat) :
  (i < 6)%nat -> gl_index (take 6 gl) i = gl_index gl i.
Proof. intros Hi. unfold gl_index. rewrite lookup_take_lt by exact Hi. reflexivity. Qed.

(** Only the first six entries of the list are read. *)
Lemma nyc_taxi_reads_first_six (gl : list component) (input model_name build_reference : value) :
  nyc_taxi_data_regression gl input model_name build_reference =
  nyc_taxi_data_regression (take 6 gl) input model_name build_reference.
Proof.
  unfold nyc_taxi_data_regression. rewrite !gl_index_take by lia. reflexivity.
Qed.

Lemma gl_index_ok (gl : list component) (i : nat) :
  (i < length gl)%nat -> exists c, gl !! i = Some c /\ gl_index gl i = Ok c.
Proof.
  intros Hi. destruct (lookup_lt_is_Some_2 gl i Hi) as [c Hc].
  exists c. unfold gl_index. rewrite Hc. auto.
Qed.

(** The steps of the job are the components at indices 0 to 5, in order,
    and the wiring is the same whatever the components and values are. *)
Lemma nyc_taxi_job_inv (gl : list component) (input model_name build_reference : value)
  (job : pipeline_job) :
  nyc_taxi_data_regression gl input model_name build_reference = Ok job ->
  step_component <$> job_steps job = take 6 gl /\
  length (job_steps job) = 6%nat /\
  edges job = nyc_taxi_edges.
Proof.
  unfold nyc_taxi_data_regression, gl_index.
  destruct gl as [|c0 [|c1 [|c2 [|c3 [|c4 [|c5 rest]]]]]]; cbn; try discriminate.
  intros [= <-]. cbn. repeat split.
Qed.

Lemma nyc_taxi_job_total (gl : list component) (input model_name build_reference : value) :
  (6 <= length gl)%nat ->
  exists job, nyc_taxi_data_regression gl input model_name build_reference = Ok job.
Proof.
  intros Hlen.
  destruct gl as [|c0 [|c1 [|c2 [|c3 [|c4 [|c5 rest]]]]]]; cbn in Hlen; try lia.
  eexists. reflexivity.
Qed.

Example too_few_components :
  nyc_taxi_data_regression (take 5 sample_components) VNone VNone VNone
  = Raise (IndexError "list index out of range").
Proof. reflexivity. Qed.

(** C4, as stated, fails: the job built from six components has eight
    output-to-input edges, not five. *)
Lemma nyc_taxi_edges_not_five :
  ~ (forall (gl : list component) (input model_name build_reference : value)
            (job : pipeline_job),
        nyc_taxi_data_regression gl input model_name build_reference = Ok job ->
        length (edges job) = 5%nat).
Proof.
  intros H.
  destruct (nyc_taxi_job_total sample_components (VInput "uri_folder" "data")
              (VStr "taxi") (VStr "42")) as [job Hjob]; [vm_compute; lia|].
  specialize (H _ _ _ _ _ Hjob).
  apply nyc_taxi_job_inv in Hjob. destruct Hjob as (_ & _ & Hedges).
  rewrite Hedges in H. vm_compute in H. discriminate H.
Qed.

(** C4, amended: whatever the input values and the six components are, the
    job built by [nyc_taxi_data_regression] has six steps and binds exactly
    eight output-to-input edges, joining seven pairs of steps, in the fixed
    order of [nyc_taxi_edges]. *)
Theorem nyc_taxi_fixed_wiring (gl : list component)
  (input model_name build_reference : value) :
  (6 <= length gl)%nat ->
  exists job,
    nyc_taxi_data_regression gl input model_name build_reference = Ok job /\
    length (job_steps job) = 6%nat /\
    edges job = nyc_taxi_edges /\
    length (edges job) = 8%nat /\
    length (links job) = 7%nat.
Proof.
  intros Hlen.
  destruct (nyc_taxi_job_total gl input model_name build_reference Hlen) as [job Hjob].
  exists job. split; [exact Hjob|].
  apply nyc_taxi_job_inv in Hjob. destruct Hjob as (_ & Hsteps & Hedges).
  unfold links. rewrite Hedges. repeat split. exact Hsteps.
Qed.

Lemma nyc_taxi_fixed_wiring_witness :
  exists job,
    nyc_taxi_data_regression sample_components (VInput "uri_folder" "data")
      (VStr "taxi") (VStr "42") = Ok job /\
    length (job_steps job) = 6%nat /\
    edges job = nyc_taxi_edges /\
    length (edges job) = 8%nat /\
    length (links job) = 7%nat.
Proof.
  apply (nyc_taxi_fixed_wiring sample_components). vm_compute. lia.
Defined.

(** ** The module-level list *)

Lemma load_components_six (h : host) (client : ml_client)
  (environment_name deploy_environment data_config_path asset_id : string)
  (loaded : list component) :
  load_components h client environment_name deploy_environment data_config_path
  = Ok (asset_id, loaded) ->
  length loaded = 6%nat.
Proof.
  unfold load_components.
  destruct (read_datasets h data_config_path) as [datasets|]; cbn; [|discriminate].
  destruct (resolve_dataset_name deploy_environment datasets) as [name|]; cbn;
    [|discriminate].
  destruct (data_get client name "latest") as [asset|]; cbn; [|discriminate].
  repeat (match goal with
          | |- context [load_component h ?p] =>
              destruct (load_component h p); cbn; [|discriminate]
          end).
  intros [= _ <-]. reflexivity.
Qed.

Section construct_pipeline_call.
Variables (h : host) (client : ml_client).
Variables cluster_name environment_name display deploy_environment : string.
Variables build_reference model_name data_config_path : string.

(** A call that raises leaves the list as it was or six longer. *)
Lemma construct_pipeline_raise (gl gl' : list component) (e : exn) :
  construct_pipeline h cluster_name environment_name display deploy_environment
    build_reference model_name data_config_path client gl = (Raise e, gl') ->
  gl' = gl \/ exists six, length six = 6%nat /\ gl' = (gl ++ six)%list.
Proof.
  unfold construct_pipeline.
  destruct (load_components _ _ _ _ _) as [[asset loaded]|e'] eqn:Hload.
  - intros [= _ <-]. right. exists loaded. split; [|reflexivity].
    exact (load_components_six _ _ _ _ _ _ _ Hload).
  - intros [= _ <-]. left. reflexivity.
Qed.

(** A call that returns has appended six components to the list, and its
    job is built from the first six entries of the list so extended. *)
Lemma construct_pipeline_ok (gl gl' : list component) (pj : pipeline_job) :
  construct_pipeline h cluster_name environment_name display deploy_environment
    build_reference model_name data_config_path client gl = (Ok pj, gl') ->
  (exists six, length six = 6%nat /\ gl' = (gl ++ six)%list) /\
  step_component <$> job_steps pj = take 6 gl'.
Proof.
  unfold construct_pipeline.
  destruct (load_components _ _ _ _ _) as [[asset loaded]|e'] eqn:Hload;
    [|discriminate].
  destruct (sdk_rejects h _ _ _ _); [discriminate|].
  destruct (nyc_taxi_data_regression _ _ _ _) as [job|e'] eqn:Hjob; cbn;
    [|discriminate].
  intros [= <- <-]. cbn. split.
  - exists loaded. split; [|reflexivity].
    exact (load_components_six _ _ _ _ _ _ _ Hload).
  - apply nyc_taxi_job_inv in Hjob. tauto.
Qed.

End construct_pipeline_call.

(** C10: a call of [construct_pipeline] that returns has appended exactly
    six components to [gl_pipeline_components], whatever the list held, and
    nothing is ever removed; [nyc_taxi_data_regression] reads indices 0 to 5
    only; so of two successive calls in one process, the second builds its
    job from the six components appended by the first. *)
Theorem second_call_reuses_first_components
  (h1 h2 : host) (client1 client2 : ml_client)
  (cluster1 env1 display1 deploy1 build1 model1 config1 : string)
  (cluster2 env2 display2 deploy2 build2 model2 config2 : string)
  (gl0 gl1 gl2 : list component) (pj1 pj2 : pipeline_job) :
  construct_pipeline h1 cluster1 env1 display1 deploy1 build1 model1 config1
    client1 gl0 = (Ok pj1, gl1) ->
  construct_pipeline h2 cluster2 env2 display2 deploy2 build2 model2 config2
    client2 gl1 = (Ok pj2, gl2) ->
  (exists six, length six = 6%nat /\ gl1 = (gl0 ++ six)%list) /\
  (exists six, length six = 6%nat /\ gl2 = (gl1 ++ six)%list) /\
  length gl1 = (length gl0 + 6)%nat /\
  length gl2 = (length gl1 + 6)%nat /\
  (forall gl input model_name build_reference,
      nyc_taxi_data_regression gl input model_name build_reference =
      nyc_taxi_data_regression (take 6 gl) input model_name build_reference) /\
  (gl0 = gl_initial ->
   step_component <$> job_steps pj2 = gl1 /\
   step_component <$> job_steps pj2 = step_component <$> job_steps pj1).
Proof.
  intros Hfirst Hsecond.
  apply construct_pipeline_ok in Hfirst. destruct Hfirst as [(six1 & Hlen1 & ->) Hjob1].
  apply construct_pipeline_ok in Hsecond. destruct Hsecond as [(six2 & Hlen2 & ->) Hjob2].
  split; [exists six1; auto|]. split; [exists six2; auto|].
  split; [rewrite length_app; lia|]. split; [rewrite length_app; lia|].
  split; [apply nyc_taxi_reads_first_six|].
  intros ->. unfold gl_initial in *. cbn [app] in *.
  assert (Htake : take 6 (six1 ++ six2)%list = six1)
    by (rewrite take_app_le by lia; apply take_ge; lia).
  rewrite Hjob2, Htake. split; [reflexivity|].
  rewrite Hjob1. symmetry. apply take_ge. lia.
Qed.

Lemma second_call_reuses_first_components_witness :
  first_call = (Ok (returned_job first_call), snd first_call) /\
  second_call = (Ok (returned_job second_call), snd second_call) /\
  length (snd first_call) = 6%nat /\
  length (snd second_call) = 12%nat /\
  step_component <$> job_steps (returned_job second_call) = snd first_call /\
  step_component <$> job_steps (returned_job second_call)
  = step_component <$> job_steps (returned_job first_call).
Proof.
  assert (H1 : first_call = (Ok (returned_job first_call), snd first_call))
    by (vm_compute; reflexivity).
  assert (H2 : second_call = (Ok (returned_job second_call), snd second_call))
    by (vm_compute; reflexivity).
  destruct (second_call_reuses_first_components
              sample_host sample_host sample_client sample_client
              "cpu-cluster" "azureml:env:1" "run 1" "dev" "build-1" "taxi" "config.json"
              "cpu-cluster" "azureml:env:2" "run 2" "prod" "build-2" "taxi" "config.json"
              gl_initial (snd first_call) (snd second_call)
              (returned_job first_call) (returned_job second_call) H1 H2)
    as (_ & _ & Hlen1 & Hlen2 & _ & Hreuse).
  destruct (Hreuse eq_refl) as [Hfirst Hsame].
  split; [exact H1|]. split; [exact H2|]. split; [exact Hlen1|].
  split; [rewrite Hlen2, Hlen1; reflexivity|]. split; [exact Hfirst | exact Hsame].
Defined.

(** The second job runs in the environment given to the first call. *)
Example second_call_environment :
  match fst second_call with
  | Ok pj => environment ∘ step_component <$> job_steps pj
  | Raise _ => []
  end = replicate 6 "azureml:env:1".
Proof. vm_compute. reflexivity. Qed.

(** ** The completion poll *)

(** One evaluation of the loop condition and, when it holds, of the body. *)
Lemma poll_loop_unfold (fuel : nat) (svc : service) (j : job) (w : Z) (s : effects) :
  poll_loop (S fuel) svc j w s =
  if bool_decide (status j ∈ job_status) then
    if w <=? total_wait_time then
      let s1 := Effects (printed s) (slept s + 20) (S (fetches s)) (files s) in
      match jobs_get svc (fetches s) (job_name j) with
      | Raise e => Some (Raise e, s1)
      | Ok j' =>
          let s2 := add_line ("Job Status: " ++ status j') s1 in
          if stops_polling (status j')
          then Some (Ok (LoopExit j' (w + 15) StatusBreak), s2)
          else poll_loop fuel svc j' (w + 15) s2
      end
    else Some (Ok (LoopExit j w TimeoutBreak), s)
  else Some (Ok (LoopExit j w ConditionFalse), s).
Proof.
  cbn [poll_loop].
  destruct (bool_decide (status j ∈ job_status)); [|reflexivity].
  destruct (w <=? total_wait_time); [|reflexivity].
  unfold mbind, M_bind, sleep, get_job. cbn [slept fetches printed files].
  destruct (jobs_get svc (fetches s) (job_name j)) as [j'|e]; [|reflexivity].
  unfold print. destruct (stops_polling (status j')); reflexivity.
Qed.

(** What the loop has done when it stops, by an exit or by an exception of
    [client.jobs.get]: [n] sleeps of 20 and [n] status requests, while the
    counter moved by 15 for each. *)
Lemma poll_loop_effects (fuel : nat) (svc : service) :
  forall (j : job) (w : Z) (s : effects) (r : result loop_exit) (s' : effects),
    poll_loop fuel svc j w s = Some (r, s') ->
    exists n : nat,
      fetches s' = (fetches s + n)%nat /\
      slept s' = slept s + 20 * Z.of_nat n /\
      files s' = files s /\
      (w <= total_wait_time + 15 -> w + 15 * Z.of_nat n <= total_wait_time + 15) /\
      match r with
      | Ok ex =>
          last_wait_time ex = w + 15 * Z.of_nat n /\
          (reason ex = TimeoutBreak -> total_wait_time < last_wait_time ex)
      | Raise _ => (1 <= n)%nat
      end.
Proof.
  induction fuel as [|fuel IH]; intros j w s r s' Hrun; [discriminate Hrun|].
  rewrite poll_loop_unfold in Hrun.
  destruct (bool_decide (status j ∈ job_status)).
  2:{ injection Hrun as <- <-. exists 0%nat. cbn. repeat split; try lia. discriminate. }
  destruct (w <=? total_wait_time) eqn:Hw.
  2:{ injection Hrun as <- <-. exists 0%nat. cbn. apply Z.leb_gt in Hw.
      repeat split; lia. }
  apply Z.leb_le in Hw. cbn zeta in Hrun.
  destruct (jobs_get svc (fetches s) (job_name j)) as [j'|e].
  2:{ injection Hrun as <- <-. exists 1%nat. cbn. repeat split; lia. }
  destruct (stops_polling (status j')).
  { injection Hrun as <- <-. exists 1%nat. cbn. repeat split; try lia. discriminate. }
  apply IH in Hrun. destruct Hrun as (n & Hf & Hs & Hfiles & Hbound & Hr).
  cbn in Hf, Hs, Hfiles.
  exists (S n). repeat split; [lia | lia | exact Hfiles | lia |].
  destruct r as [ex|e]; [|lia].
  destruct Hr as (Hlast & Hout). repeat split; [lia | exact Hout].
Qed.

(** The loop stops before its fuel runs out as soon as the fuel covers the
    part of the budget that is left. *)
Lemma poll_loop_stops (svc : service) (fuel : nat) :
  forall (j : job) (w : Z) (s : effects),
    (1 <= fuel)%nat ->
    total_wait_time - w < 15 * (Z.of_nat fuel - 1) ->
    exists r s', poll_loop fuel svc j w s = Some (r, s').
Proof.
  induction fuel as [|fuel IH]; intros j w s Hpos Hfuel; [lia|].
  rewrite poll_loop_unfold.
  destruct (bool_decide (status j ∈ job_status)); [|eauto].
  destruct (w <=? total_wait_time) eqn:Hw; [|eauto].
  apply Z.leb_le in Hw. cbn zeta.
  destruct (jobs_get svc (fetches s) (job_name j)) as [j'|e]; [|eauto].
  destruct (stops_polling (status j')); [eauto|].
  apply IH; lia.
Qed.

(** More fuel does not change a run that stopped. *)
Lemma poll_loop_more_fuel (svc : service) (fuel : nat) :
  forall (extra : nat) (j : job) (w : Z) (s : effects) (out : result loop_exit * effects),
    poll_loop fuel svc j w s = Some out ->
    poll_loop (fuel + extra) svc j w s = Some out.
Proof.
  induction fuel as [|fuel IH]; intros extra j w s out Hrun; [discriminate Hrun|].
  cbn [Nat.add]. rewrite poll_loop_unfold in *.
  destruct (bool_decide (status j ∈ job_status)); [|exact Hrun].
  destruct (w <=? total_wait_time); [|exact Hrun].
  cbn zeta in *.
  destruct (jobs_get svc (fetches s) (job_name j)) as [j'|e]; [|exact Hrun].
  destruct (stops_polling (status j')); [exact Hrun|].
  apply IH. exact Hrun.
Qed.

(** While every answer is ["Running"], only the timeout branch ends the loop. *)
Lemma poll_loop_running (svc : service) (fuel : nat) :
  (forall n name, exists j', jobs_get svc n name = Ok j' /\ status j' = "Running") ->
  forall (j : job) (w : Z) (s : effects) (r : result loop_exit) (s' : effects),
    status j ∈ job_status ->
    poll_loop fuel svc j w s = Some (r, s') ->
    exists ex,
      r = Ok ex /\ reason ex = TimeoutBreak /\
      (w <= total_wait_time -> status (last_job ex) = "Running").
Proof.
  intros Hrunning.
  induction fuel as [|fuel IH]; intros j w s r s' Hin Hrun; [discriminate Hrun|].
  rewrite poll_loop_unfold in Hrun.
  rewrite bool_decide_eq_true_2 in Hrun by exact Hin.
  destruct (w <=? total_wait_time) eqn:Hw.
  2:{ injection Hrun as <- <-. apply Z.leb_gt in Hw. eexists. split; [reflexivity|].
      cbn. split; [reflexivity | lia]. }
  cbn zeta in Hrun.
  destruct (Hrunning (fetches s) (job_name j)) as (j' & Hget & Hst).
  rewrite Hget, Hst in Hrun.
  change (stops_polling "Running") with false in Hrun. cbn iota in Hrun.
  assert (Hin' : status j' ∈ job_status)
    by (rewrite Hst; apply list_elem_of_In; cbn; tauto).
  rewrite <- Hst in Hrun.
  destruct (IH _ _ _ _ _ Hin' Hrun) as (ex & -> & Hreason & Hstatus).
  exists ex. split; [reflexivity|]. split; [exact Hreason|].
  intros _. destruct (Z.le_gt_cases (w + 15) total_wait_time) as [Hle|Hgt].
  - apply Hstatus. exact Hle.
  - destruct fuel as [|fuel']; [discriminate Hrun|].
    rewrite poll_loop_unfold in Hrun.
    rewrite bool_decide_eq_true_2 in Hrun by exact Hin'.
    apply Z.leb_gt in Hgt. rewrite Hgt in Hrun. injection Hrun as <- <-. exact Hst.
Qed.

(** C2: the completion-poll loop stops for every sequence of answers of the
    service: 242 evaluations of its condition are always enough, with at
    most 241 status requests; and when every answer is ["Running"] it is
    the timeout branch that ends it, the counter having passed the budget
    of 3600 after 241 turns. *)
Theorem poll_loop_terminates (svc : service) (j : job) (s : effects) (fuel : nat) :
  (242 <= fuel)%nat ->
  (exists r s',
      poll_loop fuel svc j 0 s = Some (r, s') /\
      (fetches s' <= fetches s + 241)%nat) /\
  ((forall n name, exists j', jobs_get svc n name = Ok j' /\ status j' = "Running") ->
   status j ∈ job_status ->
   exists ex s',
     poll_loop fuel svc j 0 s = Some (Ok ex, s') /\
     reason ex = TimeoutBreak /\
     status (last_job ex) = "Running" /\
     last_wait_time ex = 3615 /\
     fetches s' = (fetches s + 241)%nat).
Proof.
  intros Hfuel.
  destruct (poll_loop_stops svc fuel j 0 s) as (r & s' & Hrun);
    [lia | unfold total_wait_time; lia |].
  destruct (poll_loop_effects _ _ _ _ _ _ _ Hrun) as (n & Hf & _ & _ & Hbound & Hr).
  unfold total_wait_time in *.
  assert (Hn : 15 * Z.of_nat n <= 3615) by lia. clear Hbound.
  split.
  - exists r, s'. split; [exact Hrun | lia].
  - intros Hrunning Hin.
    destruct (poll_loop_running svc fuel Hrunning _ _ _ _ _ Hin Hrun)
      as (ex & -> & Hreason & Hstatus).
    destruct Hr as [Hlast Hout]. specialize (Hout Hreason).
    exists ex, s'.
    repeat split;
      [exact Hrun | exact Hreason | apply Hstatus; unfold total_wait_time | |]; lia.
Qed.

Lemma poll_loop_terminates_witness :
  exists ex s',
    poll_loop 242 always_running (Job "job_1" "NotStarted") 0 no_effects
    = Some (Ok ex, s') /\
    reason ex = TimeoutBreak /\
    status (last_job ex) = "Running" /\
    last_wait_time ex = 3615 /\
    fetches s' = 241%nat.
Proof.
  apply (proj2 (poll_loop_terminates always_running (Job "job_1" "NotStarted")
                  no_effects 242 (Nat.le_refl 242))).
  - intros n name. eexists. split; reflexivity.
  - apply list_elem_of_In. cbn. tauto.
Defined.

(** One unit of fuel less is not enough for a job that keeps running. *)
Example poll_loop_241_runs_out :
  poll_loop 241 always_running (Job "job_1" "NotStarted") 0 no_effects = None.
Proof. vm_compute. reflexivity. Qed.

(** C3: every turn of the loop's body sleeps 20, asks for the status once
    and adds 15 to [current_wait_time], whatever happens next; so after [n]
    turns the time slept is [20 * n] and the counter is [15 * n], five short
    per turn, and the timeout branch is taken only after at least 241
    sleeps, 4820 time units of sleeping; a job that keeps running reaches
    it after exactly 241 sleeps, with 4820 slept and the counter at 3615. *)
Theorem counter_undercounts_sleep (svc : service) :
  (forall (fuel : nat) (j j' : job) (w : Z) (s : effects),
      status j ∈ job_status ->
      w <= 3600 ->
      jobs_get svc (fetches s) (job_name j) = Ok j' ->
      poll_loop (S fuel) svc j w s =
      let after_turn :=
        Effects (printed s ++ [("Job Status: " ++ status j')%string])%list
                (slept s + 20) (S (fetches s)) (files s) in
      if stops_polling (status j')
      then Some (Ok (LoopExit j' (w + 15) StatusBreak), after_turn)
      else poll_loop fuel svc j' (w + 15) after_turn) /\
  (forall (fuel : nat) (j : job) (s s' : effects) (ex : loop_exit),
      poll_loop fuel svc j 0 s = Some (Ok ex, s') ->
      exists n : nat,
        fetches s' = (fetches s + n)%nat /\
        slept s' - slept s = 20 * Z.of_nat n /\
        last_wait_time ex = 15 * Z.of_nat n /\
        (slept s' - slept s) - last_wait_time ex = 5 * Z.of_nat n /\
        (reason ex = TimeoutBreak -> (241 <= n)%nat /\ 4820 <= slept s' - slept s)) /\
  (forall (fuel : nat) (j : job) (s : effects),
      (242 <= fuel)%nat ->
      status j ∈ job_status ->
      (forall n name, exists j', jobs_get svc n name = Ok j' /\ status j' = "Running") ->
      exists ex s',
        poll_loop fuel svc j 0 s = Some (Ok ex, s') /\
        reason ex = TimeoutBreak /\
        last_wait_time ex = 3615 /\
        slept s' = slept s + 4820 /\
        fetches s' = (fetches s + 241)%nat).
Proof.
  split; [|split].
  - intros fuel j j' w s Hin Hw Hget.
    rewrite poll_loop_unfold, bool_decide_eq_true_2 by exact Hin.
    unfold total_wait_time. apply Z.leb_le in Hw. rewrite Hw, Hget. reflexivity.
  - intros fuel j s s' ex Hrun.
    destruct (poll_loop_effects _ _ _ _ _ _ _ Hrun)
      as (n & Hf & Hs & _ & _ & Hlast & Hout).
    exists n. split; [exact Hf|]. split; [lia|]. split; [lia|]. split; [lia|].
    intros Hreason. apply Hout in Hreason. unfold total_wait_time in Hreason. lia.
  - intros fuel j s Hfuel Hin Hrunning.
    destruct (poll_loop_stops svc fuel j 0 s) as (r & s' & Hrun);
      [lia | unfold total_wait_time; lia |].
    destruct (poll_loop_effects _ _ _ _ _ _ _ Hrun) as (n & Hf & Hs & _ & Hbound & Hr).
    destruct (poll_loop_running svc fuel Hrunning _ _ _ _ _ Hin Hrun)
      as (ex & -> & Hreason & _).
    destruct Hr as [Hlast Hout]. specialize (Hout Hreason).
    unfold total_wait_time in *.
    assert (Hn : n = 241%nat) by lia. subst n.
    exists ex, s'. repeat split; [exact Hrun | exact Hreason | lia | lia | exact Hf].
Qed.

Lemma counter_undercounts_sleep_witness :
  poll_loop 3 fails_on_third (Job "job_1" "NotStarted") 0 no_effects
  = poll_loop 2 fails_on_third (Job "job_1" "Running") 15
      (Effects ["Job Status: Running"] 20 1 []) /\
  exists ex s',
    poll_loop 242 always_running (Job "job_1" "NotStarted") 0 no_effects
    = Some (Ok ex, s') /\
    reason ex = TimeoutBreak /\
    last_wait_time ex = 3615 /\
    slept s' = 4820 /\
    fetches s' = 241%nat.
Proof.
  split.
  - apply (proj1 (counter_undercounts_sleep fails_on_third) 2%nat
             (Job "job_1" "NotStarted") (Job "job_1" "Running") 0 no_effects).
    + apply list_elem_of_In. cbn. tauto.
    + lia.
    + reflexivity.
  - apply (proj2 (proj2 (counter_undercounts_sleep always_running)) 242%nat
             (Job "job_1" "NotStarted") no_effects).
    + lia.
    + apply list_elem_of_In. cbn. tauto.
    + intros n name. eexists. split; reflexivity.
Defined.

Example always_running_sleeps_4820 :
  (fun out => match out with
              | Some (Ok ex, s') => Some (last_wait_time ex, slept s', reason ex)
              | _ => None
              end)
    (poll_loop 242 always_running (Job "job_1" "NotStarted") 0 no_effects)
  = Some (3615, 4820, TimeoutBreak).
Proof. vm_compute. reflexivity. Qed.

(** ** Submission, the final check and the handler *)

Lemma final_check_spec (j : job) (s : effects) :
  final_check j s =
  if succeeded (status j)
  then Some (Ok tt, add_line "job completed" s)
  else Some (Raise job_failure, s).
Proof. unfold final_check. destruct (succeeded (status j)); reflexivity. Qed.

Lemma wants_wait_false (wait_for_completion : option string) :
  wait_for_completion <> Some "True" -> wants_wait wait_for_completion = false.
Proof.
  intros Hne. destruct wait_for_completion as [w|]; [|reflexivity]. cbn.
  apply String.eqb_neq. intros ->. apply Hne. reflexivity.
Qed.

Section execute_pipeline_call.
Variables (fuel : nat) (svc : service).
Variables subscription_id resource_group_name workspace_name experiment_name : string.
Variables (pj : pipeline_job) (wait_for_completion output_file : option string).

#[local] Abbreviation run_submit :=
  (submit_job svc subscription_id resource_group_name workspace_name experiment_name
     pj output_file).
#[local] Abbreviation run_try :=
  (try_block fuel svc subscription_id resource_group_name workspace_name
     experiment_name pj wait_for_completion output_file).
#[local] Abbreviation run :=
  (execute_pipeline fuel svc subscription_id resource_group_name workspace_name
     experiment_name pj wait_for_completion output_file).

(** Submission neither sleeps nor asks for the job's status. *)
Lemma submit_job_effects (s s1 : effects) (r : result job) :
  run_submit s = Some (r, s1) -> fetches s1 = fetches s /\ slept s1 = slept s.
Proof.
  unfold submit_job, mbind, M_bind, make_client, submit, print, write_file,
    mret, M_ret.
  destruct (new_client svc _ _ _); [intros [= _ <-]; auto|].
  destruct (create_or_update svc pj experiment_name) as [j|e]; [|intros [= _ <-]; auto].
  destruct output_file as [path|]; [|intros [= _ <-]; auto].
  destruct (write_text svc path (job_name j)); intros [= _ <-]; auto.
Qed.

(** The [try] block after a successful submission. *)
Lemma try_block_submitted (s s1 : effects) (j : job) :
  run_submit s = Some (Ok j, s1) ->
  run_try s =
  if wants_wait wait_for_completion then
    match poll_loop fuel svc j 0 s1 with
    | Some (Ok ex, s2) => final_check (last_job ex) s2
    | Some (Raise e, s2) => Some (Raise e, s2)
    | None => None
    end
  else Some (Ok tt, s1).
Proof.
  unfold try_block. intros Hsub.
  unfold mbind at 1. unfold M_bind at 1. rewrite Hsub.
  destruct (wants_wait wait_for_completion); [|reflexivity].
  unfold wait_for_job, mbind, M_bind.
  destruct (poll_loop fuel svc j 0 s1) as [[[ex|e] s2]|]; reflexivity.
Qed.

(** The handler prints its line and raises the exception it caught; a
    normal end of the [try] block is the function's normal return. *)
Lemma execute_pipeline_handler (s : effects) :
  run s =
  match run_try s with
  | Some (Raise ex, s1) => Some (Raise ex, add_line (handler_line ex) s1)
  | other => other
  end.
Proof.
  unfold execute_pipeline, try_except.
  destruct (try_block _ _ _ _ _ _ _ _ _ s) as [[[[]|ex] s1]|]; reflexivity.
Qed.

(** C1: with [wait_for_completion == "True"], once the job is submitted and
    the poll loop has exited, [execute_pipeline] raises the job-failure
    exception when the final status is ["Failed"], ["Canceled"] or
    ["NotResponding"], and returns normally when it is ["Completed"] or
    ["Finished"]. *)
Theorem final_status_decides (s s1 s2 : effects) (j : job) (ex : loop_exit) :
  wait_for_completion = Some "True" ->
  run_submit s = Some (Ok j, s1) ->
  poll_loop fuel svc j 0 s1 = Some (Ok ex, s2) ->
  (status (last_job ex) ∈ ["Failed"; "Canceled"; "NotResponding"] ->
   run s = Some (Raise job_failure, add_line (handler_line job_failure) s2)) /\
  (status (last_job ex) ∈ ["Completed"; "Finished"] ->
   run s = Some (Ok tt, add_line "job completed" s2)).
Proof.
  intros Hwait Hsub Hloop.
  rewrite execute_pipeline_handler, (try_block_submitted _ _ _ Hsub), Hwait.
  cbn [wants_wait]. rewrite String.eqb_refl, Hloop, final_check_spec.
  split; intros Hin; apply list_elem_of_In in Hin; cbn in Hin;
    repeat (destruct Hin as [<-|Hin]; [reflexivity|]); destruct Hin.
Qed.

(** C8: for every value of [wait_for_completion] other than the string
    ["True"], once the job is submitted [execute_pipeline] returns without
    raising, having neither slept nor asked for the job's status, whatever
    the service would have answered. *)
Theorem no_wait_returns_after_submission (s s1 : effects) (j : job) :
  wait_for_completion <> Some "True" ->
  run_submit s = Some (Ok j, s1) ->
  run s = Some (Ok tt, s1) /\ fetches s1 = fetches s /\ slept s1 = slept s.
Proof.
  intros Hwait Hsub. split; [|exact (submit_job_effects _ _ _ Hsub)].
  rewrite execute_pipeline_handler, (try_block_submitted _ _ _ Hsub).
  rewrite (wants_wait_false _ Hwait). reflexivity.
Qed.

(** Submission always ends, and so does [execute_pipeline] once the loop
    has the fuel for its 242 tests. *)
Lemma submit_job_total (s : effects) : exists r s1, run_submit s = Some (r, s1).
Proof.
  unfold submit_job, mbind, M_bind, make_client, submit, print, write_file, mret, M_ret.
  destruct (new_client svc _ _ _); [eauto|].
  destruct (create_or_update svc pj experiment_name) as [j|e]; [|eauto].
  destruct output_file as [path|]; [|eauto].
  destruct (write_text svc path (job_name j)); eauto.
Qed.

Lemma execute_pipeline_total (s : effects) :
  (242 <= fuel)%nat -> exists r s', run s = Some (r, s').
Proof.
  intros Hfuel. rewrite execute_pipeline_handler.
  destruct (submit_job_total s) as ([j|e] & s1 & Hsub).
  - rewrite (try_block_submitted _ _ _ Hsub).
    destruct (wants_wait wait_for_completion); [|eauto].
    destruct (poll_loop_stops svc fuel j 0 s1) as ([ex|e] & s2 & Hloop);
      [lia | unfold total_wait_time; lia | |]; rewrite Hloop; [|eauto].
    rewrite final_check_spec. destruct (succeeded _); eauto.
  - unfold try_block, mbind at 1, M_bind at 1. rewrite Hsub. eauto.
Qed.

End execute_pipeline_call.

Lemma final_status_decides_witness :
  (exists s2,
      execute_pipeline 242 fails_on_third "sub" "rg" "ws" "exp" empty_job
        (Some "True") (Some "run_id.txt") no_effects
      = Some (Raise job_failure, add_line (handler_line job_failure) s2) /\
      fetches s2 = 3%nat) /\
  (exists s2,
      execute_pipeline 242 completes_on_third "sub" "rg" "ws" "exp" empty_job
        (Some "True") (Some "run_id.txt") no_effects
      = Some (Ok tt, add_line "job completed" s2) /\
      fetches s2 = 3%nat).
Proof.
  split.
  - edestruct (final_status_decides 242 fails_on_third "sub" "rg" "ws" "exp" empty_job
                 (Some "True") (Some "run_id.txt") no_effects) as [Hraise _];
      [reflexivity | lazy; reflexivity | lazy; reflexivity |].
    eexists. split; [apply Hraise; apply list_elem_of_In; cbn; tauto | reflexivity].
  - edestruct (final_status_decides 242 completes_on_third "sub" "rg" "ws" "exp"
                 empty_job (Some "True") (Some "run_id.txt") no_effects) as [_ Hreturn];
      [reflexivity | lazy; reflexivity | lazy; reflexivity |].
    eexists. split; [apply Hreturn; apply list_elem_of_In; cbn; tauto | reflexivity].
Defined.

(** The lines printed by a run whose job fails on the third status request. *)
Example failing_run_output :
  (fun out => match out with
              | Some (r, s') => Some (r, printed s', slept s', files s')
              | None => None
              end)
    (execute_pipeline 242 fails_on_third "sub" "rg" "ws" "exp" empty_job
       (Some "True") (Some "run_id.txt") no_effects)
  = Some (Raise job_failure,
          [ "The job job_1 has been submitted!";
            "Job Status: Running"; "Job Status: Running"; "Job Status: Failed";
            "Oops! invalid credentials or error while creating ML environment.. Try again... Sorry, exiting job with failure.." ],
          60, [("run_id.txt", "job_1")]).
Proof. vm_compute. reflexivity. Qed.

Lemma no_wait_returns_after_submission_witness :
  exists s1,
    execute_pipeline 0 fails_on_third "sub" "rg" "ws" "exp" empty_job
      (Some "False") (Some "run_id.txt") no_effects = Some (Ok tt, s1) /\
    fetches s1 = 0%nat /\ slept s1 = 0.
Proof.
  eexists.
  apply (no_wait_returns_after_submission 0 fails_on_third "sub" "rg" "ws" "exp"
           empty_job (Some "False") (Some "run_id.txt") no_effects _
           (Job "job_1" "NotStarted")).
  - discriminate.
  - reflexivity.
Defined.

(** Other spellings of the flag, and its absence, skip the wait as well. *)
Example no_wait_spellings :
  Forall (fun w =>
            fst <$> execute_pipeline 0 fails_on_third "sub" "rg" "ws" "exp" empty_job
                      w None no_effects = Some (Ok tt))
         [Some "true"; Some "TRUE"; Some "False"; Some ""; None].
Proof. repeat constructor. Qed.

(** *** Exceptions and the handler *)

(** A run that nothing interrupts is the run described before. *)
Lemma poll_loop_i_uninterrupted (fuel : nat) (svc : service) :
  forall (j : job) (w : Z) (s : effects),
    poll_loop_i fuel None svc j w s = uninterrupted (poll_loop fuel svc j w) s.
Proof.
  induction fuel as [|fuel IH]; intros j w s; [reflexivity|].
  unfold uninterrupted at 1. rewrite poll_loop_unfold. cbn [poll_loop_i].
  destruct (bool_decide (status j ∈ job_status)); [|reflexivity].
  destruct (w <=? total_wait_time); [|reflexivity].
  unfold bind_i, sleep_i, uninterrupted at 1 2 3, sleep, get_job, print.
  cbn [slept fetches printed files].
  destruct (jobs_get svc (fetches s) (job_name j)) as [j'|e]; [|reflexivity].
  cbn zeta. destruct (stops_polling (status j')); [reflexivity|].
  rewrite IH. reflexivity.
Qed.

Section execute_pipeline_interrupted.
Variables (fuel : nat) (interrupt : option nat) (svc : service).
Variables subscription_id resource_group_name workspace_name experiment_name : string.
Variables (pj : pipeline_job) (wait_for_completion output_file : option string).

#[local] Abbreviation run_submit :=
  (submit_job svc subscription_id resource_group_name workspace_name experiment_name
     pj output_file).
#[local] Abbreviation run_try_i :=
  (try_block_i fuel interrupt svc subscription_id resource_group_name workspace_name
     experiment_name pj wait_for_completion output_file).
#[local] Abbreviation run_i :=
  (execute_pipeline_i fuel interrupt svc subscription_id resource_group_name
     workspace_name experiment_name pj wait_for_completion output_file).



(** Without an interrupt the function behaves as [execute_pipeline]. *)
Lemma execute_pipeline_i_uninterrupted (s : effects) :
  interrupt = None ->
  run_i s =
  uninterrupted
    (execute_pipeline fuel svc subscription_id resource_group_name workspace_name
       experiment_name pj wait_for_completion output_file) s.
Proof.
  intros Hnone.
  unfold execute_pipeline_i, execute_pipeline, try_except_i, try_except,
    try_block_i, try_block, wait_for_job.
  unfold uninterrupted, bind_i, mbind, M_bind.
  destruct (run_submit s) as [[[j|e] s1]|]; [| reflexivity | reflexivity].
  destruct (wants_wait wait_for_completion); [|reflexivity].
  rewrite Hnone, poll_loop_i_uninterrupted. unfold uninterrupted.
  destruct (poll_loop fuel svc j 0 s1) as [[[ex|e] s2]|]; [| reflexivity | reflexivity].
  rewrite final_check_spec.
  destruct (succeeded (status (last_job ex))); reflexivity.
Qed.

End execute_pipeline_interrupted.



(** Failures of the client, of the submission, of the file and of a status
    request all take the same way out. *)
Example rejected_credentials :
  let denied := Exn "ClientAuthenticationError" "no credential" in
  let svc := Service (fun _ _ _ => Some denied) (fun _ _ => Ok (Job "job_1" "Queued"))
               (fun _ _ => None) (fun _ name => Ok (Job name "Running")) in
  execute_pipeline 242 svc "sub" "rg" "ws" "exp" empty_job (Some "True") None no_effects
  = Some (Raise denied, add_line (handler_line denied) no_effects).
Proof. reflexivity. Qed.

Example status_request_fails :
  let lost := Exn "ServiceRequestError" "connection reset" in
  let svc := Service (fun _ _ _ => None) (fun _ _ => Ok (Job "job_1" "Queued"))
               (fun _ _ => None) (fun _ _ => Raise lost) in
  (fun out => match out with
              | Some (r, s') => Some (r, last (printed s'), slept s')
              | None => None
              end)
    (execute_pipeline 242 svc "sub" "rg" "ws" "exp" empty_job (Some "True") None
       no_effects)
  = Some (Raise lost, Some (handler_line lost), 20).
Proof. reflexivity. Qed.

(* ===================================================================== *)
(** * Part III: further properties of the script *)
(* ===================================================================== *)

(** ** The dataset lookup on arbitrary JSON arrays *)

(** One turn of the loop either keeps the name or takes the [DATASET_NAME]
    of an object that passes lines 105 and 106. *)
Lemma resolve_elem_ok (t : string) (d elem v : json) :
  resolve_elem t d elem = Ok v ->
  v = d \/
  exists fields, elem = JObj fields /\ selects t fields = true /\
                 fields !! "DATASET_NAME" = Some v.
Proof.
  destruct elem as [| b | lit | str | items | fields].
  - discriminate.
  - discriminate.
  - discriminate.
  - unfold resolve_elem. cbn.
    destruct (bool_decide (is_Some (String.index 0 "DATA_PURPOSE" str))); cbn.
    + destruct (bool_decide (is_Some (String.index 0 "ENV_NAME" str))); cbn;
        [discriminate | intros [= <-]; auto].
    + intros [= <-]; auto.
  - unfold resolve_elem. cbn.
    destruct (existsb _ items); cbn.
    + destruct (existsb _ items); cbn; [discriminate | intros [= <-]; auto].
    + intros [= <-]; auto.
  - rewrite resolve_elem_object. destruct (selects t fields) eqn:Hsel.
    + cbn. destruct (fields !! "DATASET_NAME") as [name|] eqn:Hname; [|discriminate].
      intros [= <-]. right. exists fields. auto.
    + intros [= <-]. auto.
Qed.

Lemma resolve_loop_ok (t : string) (datasets : list json) :
  forall d v,
    resolve_loop t datasets d = Ok v ->
    v = d \/
    exists fields, JObj fields ∈ datasets /\ selects t fields = true /\
                   fields !! "DATASET_NAME" = Some v.
Proof.
  induction datasets as [|elem rest IH]; intros d v Hrun.
  - injection Hrun as <-. auto.
  - cbn [resolve_loop] in Hrun.
    destruct (resolve_elem t d elem) as [d'|e] eqn:Helem; [|discriminate Hrun].
    cbn in Hrun. apply IH in Hrun. apply resolve_elem_ok in Helem.
    destruct Hrun as [->|(fields & Hin & Hsel & Hname)].
    + destruct Helem as [->|(fields & -> & Hsel & Hname)]; [auto|].
      right. exists fields. split; [left | auto].
    + right. exists fields. split; [right; exact Hin | auto].
Qed.

(** X1: whatever JSON array the config holds, a dataset name the loop ends
    with is either [None] or the [DATASET_NAME] of an object of the array
    that carries [DATA_PURPOSE] and whose [ENV_NAME] is the target tag: the
    dataset of another environment is never selected. *)
Theorem resolve_dataset_name_sound (target : string) (datasets : list json) (v : json) :
  resolve_dataset_name target datasets = Ok v ->
  v = JNull \/
  exists fields,
    JObj fields ∈ datasets /\
    is_Some (fields !! "DATA_PURPOSE") /\
    fields !! "ENV_NAME" = Some (JStr target) /\
    fields !! "DATASET_NAME" = Some v.
Proof.
  intros Hrun. apply resolve_loop_ok in Hrun.
  destruct Hrun as [->|(fields & Hin & Hsel & Hname)]; [auto|].
  right. exists fields. unfold selects in Hsel. apply andb_true_iff in Hsel.
  destruct Hsel as [Hpurpose Hmatch].
  repeat split; [exact Hin | | apply env_matches_spec; exact Hmatch | exact Hname].
  apply bool_decide_eq_true in Hpurpose. exact Hpurpose.
Qed.

Lemma resolve_dataset_name_sound_witness :
  JStr "nyc_taxi_dev" = JNull \/
  exists fields,
    JObj fields ∈ [JStr "DATA_PURPOSE"; JObj prod_entry; JArr []; JObj dev_entry] /\
    is_Some (fields !! "DATA_PURPOSE") /\
    fields !! "ENV_NAME" = Some (JStr "dev") /\
    fields !! "DATASET_NAME" = Some (JStr "nyc_taxi_dev").
Proof.
  apply (resolve_dataset_name_sound "dev"
           [JStr "DATA_PURPOSE"; JObj prod_entry; JArr []; JObj dev_entry]).
  reflexivity.
Defined.

(** The loop over a config in two parts is the loop over the first part
    followed by the loop over the second. *)
Lemma resolve_loop_app (t : string) (front back : list json) :
  forall d,
    resolve_loop t (front ++ back)%list d =
    resolve_loop t front d ≫= resolve_loop t back.
Proof.
  induction front as [|elem front IH]; intros d; [reflexivity|].
  cbn [app resolve_loop].
  destruct (resolve_elem t d elem) as [d'|e]; cbn; [apply IH | reflexivity].
Qed.

(** X2: entries for other environments, and entries without [DATA_PURPOSE],
    do not matter: on a config of objects the loop gives the same result,
    exception included, as on the selected entries alone. *)
Theorem resolve_only_selected (target : string) (cfg : list entry) :
  resolve_dataset_name target (JObj <$> cfg) =
  resolve_dataset_name target (JObj <$> List.filter (selects target) cfg).
Proof.
  unfold resolve_dataset_name. generalize JNull.
  induction cfg as [|e cfg IH]; intros d; [reflexivity|].
  cbn [List.filter]. destruct (selects target e) eqn:Hsel.
  - rewrite !fmap_cons. cbn [resolve_loop]. rewrite resolve_elem_object, Hsel.
    destruct (py_getitem (JObj e) "DATASET_NAME") as [d'|err]; cbn;
      [apply IH | reflexivity].
  - rewrite fmap_cons. cbn [resolve_loop]. rewrite resolve_elem_object, Hsel.
    cbn. apply IH.
Qed.

(** X3: the first selected entry without a [DATASET_NAME] stops the loop
    with [KeyError], whatever follows it in the file. *)
Theorem resolve_missing_dataset_name (target : string) (front back : list entry)
  (e : entry) :
  (forall x, x ∈ front -> selects target x = true -> is_Some (x !! "DATASET_NAME")) ->
  selects target e = true ->
  e !! "DATASET_NAME" = None ->
  resolve_dataset_name target (JObj <$> (front ++ e :: back)%list)
  = Raise (KeyError "DATASET_NAME").
Proof.
  intros Hfront Hsel Hnone. unfold resolve_dataset_name.
  rewrite fmap_app, resolve_loop_app, (resolve_loop_last _ _ Hfront), fmap_cons.
  cbn [mbind result_bind resolve_loop]. rewrite resolve_elem_object, Hsel.
  unfold py_getitem. rewrite Hnone. reflexivity.
Qed.

Lemma resolve_missing_dataset_name_witness :
  resolve_dataset_name "dev"
    (JObj <$> ([prod_entry; dev_entry] ++ nameless_dev_entry :: [dev_entry_v2])%list)
  = Raise (KeyError "DATASET_NAME").
Proof.
  apply (resolve_missing_dataset_name "dev" [prod_entry; dev_entry] [dev_entry_v2]
           nameless_dev_entry).
  - intros x Hx _. apply list_elem_of_In in Hx.
    destruct Hx as [<-|[<-|[]]]; vm_compute; eauto.
  - reflexivity.
  - reflexivity.
Defined.

(** X4: an element of the array that is [null], a boolean or a number stops
    the loop with [TypeError] at the test of line 105, whatever follows it. *)
Theorem resolve_non_iterable_element (target : string) (front : list entry)
  (bad : json) (back : list json) :
  (forall x, x ∈ front -> selects target x = true -> is_Some (x !! "DATASET_NAME")) ->
  match bad with JNull | JBool _ | JNum _ => True | _ => False end ->
  resolve_dataset_name target ((JObj <$> front) ++ bad :: back)%list
  = Raise (TypeError "argument is not iterable").
Proof.
  intros Hfront Hbad. unfold resolve_dataset_name.
  rewrite resolve_loop_app, (resolve_loop_last _ _ Hfront).
  cbn [mbind result_bind resolve_loop].
  destruct bad; try destruct Hbad; reflexivity.
Qed.

Lemma resolve_non_iterable_element_witness :
  resolve_dataset_name "dev" ((JObj <$> [prod_entry]) ++ JNull :: [JObj dev_entry])%list
  = Raise (TypeError "argument is not iterable").
Proof.
  apply (resolve_non_iterable_element "dev" [prod_entry] JNull [JObj dev_entry]).
  - intros x Hx _. apply list_elem_of_In in Hx.
    destruct Hx as [<-|[]]; vm_compute; eauto.
  - exact I.
Defined.

(** ** The shape of the job graph *)

(** X5: with fewer than six components in the module-level list,
    [nyc_taxi_data_regression] raises [IndexError] and builds no job. *)
Theorem nyc_taxi_index_error (gl : list component)
  (input model_name build_reference : value) :
  (length gl < 6)%nat ->
  nyc_taxi_data_regression gl input model_name build_reference
  = Raise (IndexError "list index out of range").
Proof.
  intros Hlen.
  destruct gl as [|c0 [|c1 [|c2 [|c3 [|c4 [|c5 rest]]]]]]; try reflexivity.
  cbn in Hlen. lia.
Qed.

Lemma nyc_taxi_index_error_witness :
  nyc_taxi_data_regression (take 5 sample_components) (VInput "uri_folder" "data")
    (VStr "taxi") (VStr "42")
  = Raise (IndexError "list index out of range").
Proof.
  apply (nyc_taxi_index_error (take 5 sample_components)). vm_compute. lia.
Defined.

(** X6: the steps are wired in the order in which they are invoked: every
    edge leads from a step to a later step of the job, every step but the
    first consumes an output of an earlier step, and every step but the
    last feeds a later one. *)
Theorem nyc_taxi_edges_forward (gl : list component)
  (input model_name build_reference : value) (job : pipeline_job) :
  nyc_taxi_data_regression gl input model_name build_reference = Ok job ->
  Forall (fun e => (producer e < consumer e < length (job_steps job))%nat) (edges job) /\
  (forall i, (1 <= i < length (job_steps job))%nat ->
             exists e, e ∈ edges job /\ consumer e = i) /\
  (forall i, (S i < length (job_steps job))%nat ->
             exists e, e ∈ edges job /\ producer e = i).
Proof.
  intros Hjob. apply nyc_taxi_job_inv in Hjob. destruct Hjob as (_ & -> & ->).
  split; [|split].
  - unfold nyc_taxi_edges. repeat constructor.
  - intros i Hi.
    assert (Hcases : (i = 1 \/ i = 2 \/ i = 3 \/ i = 4 \/ i = 5)%nat) by lia.
    destruct Hcases as [->|[->|[->|[->| ->]]]]; eexists;
      (split; [apply list_elem_of_In|]).
    + left. reflexivity.
    + reflexivity.
    + right. left. reflexivity.
    + reflexivity.
    + right. right. left. reflexivity.
    + reflexivity.
    + do 4 right. left. reflexivity.
    + reflexivity.
    + do 6 right. left. reflexivity.
    + reflexivity.
  - intros i Hi.
    assert (Hcases : (i = 0 \/ i = 1 \/ i = 2 \/ i = 3 \/ i = 4)%nat) by lia.
    destruct Hcases as [->|[->|[->|[->| ->]]]]; eexists;
      (split; [apply list_elem_of_In|]).
    + left. reflexivity.
    + reflexivity.
    + right. left. reflexivity.
    + reflexivity.
    + right. right. left. reflexivity.
    + reflexivity.
    + do 4 right. left. reflexivity.
    + reflexivity.
    + do 7 right. left. reflexivity.
    + reflexivity.
Qed.

Lemma nyc_taxi_edges_forward_witness :
  Forall (fun e => (producer e < consumer e < 6)%nat) nyc_taxi_edges.
Proof.
  destruct (nyc_taxi_job_total sample_components (VInput "uri_folder" "data")
              (VStr "taxi") (VStr "42")) as [job Hjob]; [vm_compute; lia|].
  destruct (nyc_taxi_edges_forward _ _ _ _ _ Hjob) as [Hforward _].
  apply nyc_taxi_job_inv in Hjob. destruct Hjob as (_ & Hsteps & Hedges).
  rewrite Hsteps, Hedges in Hforward. exact Hforward.
Defined.

(** X7: the values handed to the pipeline function reach the steps in three
    places only: the pipeline input is [raw_data] of the first step, and
    the model name and the build reference go to the last step. *)
Theorem nyc_taxi_given_inputs (gl : list component)
  (input model_name build_reference : value) (job : pipeline_job) :
  nyc_taxi_data_regression gl input model_name build_reference = Ok job ->
  given_inputs job =
  [ (0%nat, "raw_data", input);
    (5%nat, "model_name", model_name);
    (5%nat, "build_reference", build_reference) ].
Proof.
  unfold nyc_taxi_data_regression, gl_index.
  destruct gl as [|c0 [|c1 [|c2 [|c3 [|c4 [|c5 rest]]]]]]; cbn; try discriminate.
  intros [= <-]. reflexivity.
Qed.

Lemma nyc_taxi_given_inputs_witness :
  given_inputs
    (returned_job (nyc_taxi_data_regression sample_components
                     (VInput "uri_folder" "data") (VStr "taxi") (VStr "42"), []))
  = [ (0%nat, "raw_data", VInput "uri_folder" "data");
      (5%nat, "model_name", VStr "taxi");
      (5%nat, "build_reference", VStr "42") ].
Proof.
  apply (nyc_taxi_given_inputs sample_components). reflexivity.
Defined.

(** Takes the edge at position [k] of the wiring as the witness. *)
Tactic Notation "pick_edge" integer(k) :=
  solve [ eexists; split;
          [ apply list_elem_of_In; do k right; left; reflexivity | reflexivity ] ].

(** X8: each of the six outputs of the pipeline is an output of one of its
    steps that a later step consumes as well, and none has a mode set. *)
Theorem nyc_taxi_outputs_are_edges (gl : list component)
  (input model_name build_reference : value) (job : pipeline_job) :
  nyc_taxi_data_regression gl input model_name build_reference = Ok job ->
  fst <$> job_outputs job =
    [ "pipeline_job_prepped_data"; "pipeline_job_transformed_data";
      "pipeline_job_trained_model"; "pipeline_job_test_data";
      "pipeline_job_predictions"; "pipeline_job_score_report" ] /\
  Forall (fun o => out_mode o = None /\
                   exists e, e ∈ edges job /\
                             out_binding o = StepOutput (producer e) (out_port e))
         (snd <$> job_outputs job).
Proof.
  intros Hjob. pose proof (nyc_taxi_job_inv _ _ _ _ _ Hjob) as (_ & _ & Hedges).
  rewrite Hedges. clear Hedges. revert Hjob.
  unfold nyc_taxi_data_regression, gl_index.
  destruct gl as [|c0 [|c1 [|c2 [|c3 [|c4 [|c5 rest]]]]]]; cbn; try discriminate.
  intros [= <-]. cbn. split; [reflexivity|].
  repeat (apply List.Forall_cons;
          [split; [reflexivity|];
           first [pick_edge 0 | pick_edge 1 | pick_edge 2 | pick_edge 3
                 | pick_edge 4 | pick_edge 5 | pick_edge 6 | pick_edge 7]
          |]).
  apply List.Forall_nil.
Qed.

Lemma nyc_taxi_outputs_are_edges_witness :
  fst <$> job_outputs
            (returned_job (nyc_taxi_data_regression sample_components
                             (VInput "uri_folder" "data") (VStr "taxi") (VStr "42"), []))
  = [ "pipeline_job_prepped_data"; "pipeline_job_transformed_data";
      "pipeline_job_trained_model"; "pipeline_job_test_data";
      "pipeline_job_predictions"; "pipeline_job_score_report" ].
Proof.
  exact (proj1 (nyc_taxi_outputs_are_edges sample_components
                  (VInput "uri_folder" "data") (VStr "taxi") (VStr "42") _ eq_refl)).
Defined.

(** ** [construct_pipeline], statement by statement *)

Section construct_pipeline_details.
Variables (h : host) (client : ml_client).
Variables cluster_name environment_name display deploy_environment : string.
Variables build_reference model_name data_config_path : string.

#[local] Abbreviation components_dir :=
  (path_join (getcwd h) "mlops/nyc_taxi/components").
#[local] Abbreviation call gl :=
  (construct_pipeline h cluster_name environment_name display deploy_environment
     build_reference model_name data_config_path client gl).

(** What has happened when lines 101-125 have run without raising. *)
Lemma load_components_inv (asset_id : string) (loaded : list component) :
  load_components h client environment_name deploy_environment data_config_path
  = Ok (asset_id, loaded) ->
  exists datasets name c0 c1 c2 c3 c4 c5,
    read_datasets h data_config_path = Ok datasets /\
    resolve_dataset_name deploy_environment datasets = Ok name /\
    data_get client name "latest" = Ok asset_id /\
    load_component h (components_dir ++ "/prep.yml") = Ok c0 /\
    load_component h (components_dir ++ "/transform.yml") = Ok c1 /\
    load_component h (components_dir ++ "/train.yml") = Ok c2 /\
    load_component h (components_dir ++ "/predict.yml") = Ok c3 /\
    load_component h (components_dir ++ "/score.yml") = Ok c4 /\
    load_component h (components_dir ++ "/register.yml") = Ok c5 /\
    loaded = set_environment environment_name <$> [c0; c1; c2; c3; c4; c5].
Proof.
  unfold load_components.
  destruct (read_datasets h data_config_path) as [datasets|] eqn:Hread; cbn;
    [|discriminate].
  destruct (resolve_dataset_name deploy_environment datasets) as [name|] eqn:Hname;
    cbn; [|discriminate].
  destruct (data_get client name "latest") as [asset|] eqn:Hasset; cbn; [|discriminate].
  destruct (load_component h (components_dir ++ "/prep.yml")) as [c0|] eqn:H0; cbn;
    [|discriminate].
  destruct (load_component h (components_dir ++ "/transform.yml")) as [c1|] eqn:H1; cbn;
    [|discriminate].
  destruct (load_component h (components_dir ++ "/train.yml")) as [c2|] eqn:H2; cbn;
    [|discriminate].
  destruct (load_component h (components_dir ++ "/predict.yml")) as [c3|] eqn:H3; cbn;
    [|discriminate].
  destruct (load_component h (components_dir ++ "/score.yml")) as [c4|] eqn:H4; cbn;
    [|discriminate].
  destruct (load_component h (components_dir ++ "/register.yml")) as [c5|] eqn:H5; cbn;
    [|discriminate].
  intros [= <- <-]. exists datasets, name, c0, c1, c2, c3, c4, c5.
  repeat split; assumption.
Qed.

(** What a returning call has done, in full. *)
Lemma construct_pipeline_inv (gl gl' : list component) (pj : pipeline_job) :
  call gl = (Ok pj, gl') ->
  exists asset_id loaded job,
    load_components h client environment_name deploy_environment data_config_path
    = Ok (asset_id, loaded) /\
    gl' = (gl ++ loaded)%list /\
    nyc_taxi_data_regression gl' (VInput "uri_folder" asset_id) (VStr model_name)
      (VStr build_reference) = Ok job /\
    pj = {| job_steps := job_steps job;
            job_outputs :=
              set_output_mode "pipeline_job_prepped_data" "rw_mount" (job_outputs job);
            display_name := Some display;
            tags := [("environment", deploy_environment);
                     ("build_reference", build_reference)];
            default_compute := Some cluster_name;
            force_rerun := Some true;
            default_datastore := Some "workspaceblobstore" |}.
Proof.
  unfold construct_pipeline.
  destruct (load_components _ _ _ _ _) as [[asset loaded]|e'] eqn:Hload;
    [|discriminate].
  destruct (sdk_rejects h _ _ _ _); [discriminate|].
  destruct (nyc_taxi_data_regression _ _ _ _) as [job|e'] eqn:Hjob; cbn;
    [|discriminate].
  intros [= <- <-]. exists asset, loaded, job. auto.
Qed.

(** X9: a call of [construct_pipeline] that raises has either failed in
    lines 101-117 (config lookup, [data.get], one of the six
    [load_component] calls), and then the module-level list is untouched,
    none of the components already loaded being appended; or it has failed
    at line 134, after the appends, and then the list keeps the six
    components just loaded: the appends are not undone. *)
Theorem construct_pipeline_raise_list (gl gl' : list component) (e : exn) :
  call gl = (Raise e, gl') ->
  (load_components h client environment_name deploy_environment data_config_path
   = Raise e /\ gl' = gl) \/
  (exists asset_id loaded,
      load_components h client environment_name deploy_environment data_config_path
      = Ok (asset_id, loaded) /\
      sdk_rejects h (gl ++ loaded)%list (VInput "uri_folder" asset_id)
        (VStr model_name) (VStr build_reference) = Some e /\
      length loaded = 6%nat /\
      gl' = (gl ++ loaded)%list).
Proof.
  unfold construct_pipeline.
  destruct (load_components _ _ _ _ _) as [[asset loaded]|e'] eqn:Hload.
  - pose proof (load_components_six _ _ _ _ _ _ _ Hload) as Hsix.
    destruct (sdk_rejects h _ _ _ _) as [e'|] eqn:Hsdk.
    + intros [= <- <-]. right. exists asset, loaded. auto.
    + destruct (nyc_taxi_job_total (gl ++ loaded)%list (VInput "uri_folder" asset)
                  (VStr model_name) (VStr build_reference)) as [job Hjob];
        [rewrite length_app; lia|].
      rewrite Hjob. cbn. discriminate.
  - intros [= <- <-]. left. auto.
Qed.

(** X10: a call that returns has appended, in this order, the components
    loaded from [prep.yml], [transform.yml], [train.yml], [predict.yml],
    [score.yml] and [register.yml] of [<cwd>/mlops/nyc_taxi/components],
    each with its environment replaced by [environment_name]; on a freshly
    loaded module these six are the steps of the job. *)
Theorem construct_pipeline_appends_loaded (gl gl' : list component) (pj : pipeline_job) :
  call gl = (Ok pj, gl') ->
  exists c0 c1 c2 c3 c4 c5,
    load_component h (components_dir ++ "/prep.yml") = Ok c0 /\
    load_component h (components_dir ++ "/transform.yml") = Ok c1 /\
    load_component h (components_dir ++ "/train.yml") = Ok c2 /\
    load_component h (components_dir ++ "/predict.yml") = Ok c3 /\
    load_component h (components_dir ++ "/score.yml") = Ok c4 /\
    load_component h (components_dir ++ "/register.yml") = Ok c5 /\
    gl' = (gl ++ (set_environment environment_name <$> [c0; c1; c2; c3; c4; c5]))%list /\
    (gl = gl_initial ->
     step_component <$> job_steps pj
     = set_environment environment_name <$> [c0; c1; c2; c3; c4; c5]).
Proof.
  intros Hcall. pose proof (construct_pipeline_ok _ _ _ _ _ _ _ _ _ _ _ _ Hcall) as [_ Hsteps].
  apply construct_pipeline_inv in Hcall.
  destruct Hcall as (asset & loaded & job & Hload & -> & _ & _).
  apply load_components_inv in Hload.
  destruct Hload as (datasets & name & c0 & c1 & c2 & c3 & c4 & c5 & _ & _ & _ &
                     H0 & H1 & H2 & H3 & H4 & H5 & ->).
  exists c0, c1, c2, c3, c4, c5. repeat split; try assumption.
  intros ->. rewrite Hsteps. reflexivity.
Qed.

(** X11: once the list holds six components, a call builds its job from
    those six, whatever it has just loaded and whatever [environment_name]
    it was given, and leaves them in place for the next call. *)
Theorem construct_pipeline_stale_components (gl gl' : list component)
  (pj : pipeline_job) :
  (6 <= length gl)%nat ->
  call gl = (Ok pj, gl') ->
  step_component <$> job_steps pj = take 6 gl /\ take 6 gl' = take 6 gl.
Proof.
  intros Hlen Hcall.
  destruct (construct_pipeline_ok _ _ _ _ _ _ _ _ _ _ _ _ Hcall)
    as [(six & _ & ->) Hsteps].
  rewrite Hsteps. split; apply take_app_le; exact Hlen.
Qed.

(** X12: the job a call returns carries the display name, the two tags, the
    compute target, the forced rerun and the datastore of lines 137-150,
    keeps the wiring of the pipeline function, and has the mode [rw_mount]
    on [pipeline_job_prepped_data] and on no other output. *)
Theorem construct_pipeline_job_settings (gl gl' : list component) (pj : pipeline_job) :
  call gl = (Ok pj, gl') ->
  display_name pj = Some display /\
  tags pj = [("environment", deploy_environment); ("build_reference", build_reference)] /\
  default_compute pj = Some cluster_name /\
  force_rerun pj = Some true /\
  default_datastore pj = Some "workspaceblobstore" /\
  edges pj = nyc_taxi_edges /\
  (fun '(name, o) => (name, out_mode o)) <$> job_outputs pj =
    [ ("pipeline_job_prepped_data", Some "rw_mount");
      ("pipeline_job_transformed_data", None);
      ("pipeline_job_trained_model", None);
      ("pipeline_job_test_data", None);
      ("pipeline_job_predictions", None);
      ("pipeline_job_score_report", None) ].
Proof.
  intros Hcall. apply construct_pipeline_inv in Hcall.
  destruct Hcall as (asset & loaded & job & _ & _ & Hjob & ->). cbn.
  pose proof (nyc_taxi_job_inv _ _ _ _ _ Hjob) as (_ & _ & Hedges).
  repeat split; [exact Hedges|].
  revert Hjob. unfold nyc_taxi_data_regression, gl_index.
  repeat (match goal with
          | |- context [?l !! ?i] =>
              destruct (l !! i); cbn [mbind result_bind]; [|discriminate]
          end).
  intros [= <-]. reflexivity.
Qed.

(** X13: the pipeline input of a returned job is the folder whose path is
    the [id] that [ml_client.data.get] answered for the dataset name
    resolved from the config, asked with the label [latest]; the model name
    and the build reference are those of the call. *)
Theorem construct_pipeline_data_asset (gl gl' : list component) (pj : pipeline_job) :
  call gl = (Ok pj, gl') ->
  exists datasets name asset_id,
    read_datasets h data_config_path = Ok datasets /\
    resolve_dataset_name deploy_environment datasets = Ok name /\
    data_get client name "latest" = Ok asset_id /\
    given_inputs pj =
    [ (0%nat, "raw_data", VInput "uri_folder" asset_id);
      (5%nat, "model_name", VStr model_name);
      (5%nat, "build_reference", VStr build_reference) ].
Proof.
  intros Hcall. apply construct_pipeline_inv in Hcall.
  destruct Hcall as (asset & loaded & job & Hload & _ & Hjob & ->).
  apply load_components_inv in Hload.
  destruct Hload as (datasets & name & c0 & c1 & c2 & c3 & c4 & c5 &
                     Hread & Hname & Hasset & _).
  exists datasets, name, asset. repeat split; try assumption.
  revert Hjob. unfold nyc_taxi_data_regression, gl_index.
  repeat (match goal with
          | |- context [?l !! ?i] =>
              destruct (l !! i); cbn [mbind result_bind]; [|discriminate]
          end).
  intros [= <-]. reflexivity.
Qed.

End construct_pipeline_details.

Lemma first_call_returns :
  first_call = (Ok (returned_job first_call), snd first_call).
Proof. vm_compute. reflexivity. Defined.

Lemma second_call_returns :
  construct_pipeline sample_host "cpu-cluster" "azureml:env:2" "run 2" "prod" "build-2"
    "taxi" "config.json" sample_client (snd first_call)
  = (Ok (returned_job second_call), snd second_call).
Proof. vm_compute. reflexivity. Defined.

Lemma construct_pipeline_raise_list_witness :
  (load_components host_without_score sample_client "azureml:env:1" "dev" "config.json"
   = Raise (Exn "FileNotFoundError" "/repo/mlops/nyc_taxi/components/score.yml") /\
   sample_components = sample_components) \/
  (exists asset_id loaded,
      load_components host_without_score sample_client "azureml:env:1" "dev"
        "config.json" = Ok (asset_id, loaded) /\
      sdk_rejects host_without_score (sample_components ++ loaded)%list
        (VInput "uri_folder" asset_id) (VStr "taxi") (VStr "build-1")
      = Some (Exn "FileNotFoundError" "/repo/mlops/nyc_taxi/components/score.yml") /\
      length loaded = 6%nat /\
      sample_components = (sample_components ++ loaded)%list).
Proof.
  apply (construct_pipeline_raise_list host_without_score sample_client
           "cpu-cluster" "azureml:env:1" "run 1" "dev" "build-1" "taxi" "config.json"
           sample_components sample_components
           (Exn "FileNotFoundError" "/repo/mlops/nyc_taxi/components/score.yml")).
  vm_compute. reflexivity.
Defined.

(** With [score.yml] missing, the four components loaded before it are not
    appended; with a [register.yml] that the SDK rejects at line 134, the
    six loaded components stay in the list of the failed call. *)
Example failed_load_appends_nothing :
  construct_pipeline host_without_score "cpu-cluster" "azureml:env:1" "run 1" "dev"
    "build-1" "taxi" "config.json" sample_client gl_initial
  = (Raise (Exn "FileNotFoundError" "/repo/mlops/nyc_taxi/components/score.yml"),
     gl_initial).
Proof. vm_compute. reflexivity. Qed.

Example rejected_job_keeps_appends :
  (fun out => (fst out, length (snd out)))
    (construct_pipeline host_with_old_register "cpu-cluster" "azureml:env:1" "run 1"
       "dev" "build-1" "taxi" "config.json" sample_client gl_initial)
  = (Raise (Exn "UnexpectedKeywordError" "unexpected keyword build_reference"), 6%nat).
Proof. vm_compute. reflexivity. Qed.

Lemma construct_pipeline_appends_loaded_witness :
  snd first_call =
  set_environment "azureml:env:1" <$>
    [ Component "/repo/mlops/nyc_taxi/components/prep.yml" "";
      Component "/repo/mlops/nyc_taxi/components/transform.yml" "";
      Component "/repo/mlops/nyc_taxi/components/train.yml" "";
      Component "/repo/mlops/nyc_taxi/components/predict.yml" "";
      Component "/repo/mlops/nyc_taxi/components/score.yml" "";
      Component "/repo/mlops/nyc_taxi/components/register.yml" "" ].
Proof.
  destruct (construct_pipeline_appends_loaded sample_host sample_client
              "cpu-cluster" "azureml:env:1" "run 1" "dev" "build-1" "taxi" "config.json"
              gl_initial _ _ first_call_returns)
    as (c0 & c1 & c2 & c3 & c4 & c5 & H0 & H1 & H2 & H3 & H4 & H5 & Hgl & _).
  vm_compute in H0, H1, H2, H3, H4, H5.
  injection H0 as <-. injection H1 as <-. injection H2 as <-.
  injection H3 as <-. injection H4 as <-. injection H5 as <-.
  exact Hgl.
Defined.

Lemma construct_pipeline_stale_components_witness :
  step_component <$> job_steps (returned_job second_call) = take 6 (snd first_call) /\
  take 6 (snd second_call) = take 6 (snd first_call).
Proof.
  apply (construct_pipeline_stale_components sample_host sample_client
           "cpu-cluster" "azureml:env:2" "run 2" "prod" "build-2" "taxi" "config.json"
           (snd first_call) (snd second_call) (returned_job second_call)).
  - vm_compute. lia.
  - exact second_call_returns.
Defined.

Lemma construct_pipeline_job_settings_witness :
  display_name (returned_job first_call) = Some "run 1" /\
  tags (returned_job first_call) = [("environment", "dev"); ("build_reference", "build-1")] /\
  default_compute (returned_job first_call) = Some "cpu-cluster" /\
  force_rerun (returned_job first_call) = Some true /\
  default_datastore (returned_job first_call) = Some "workspaceblobstore" /\
  edges (returned_job first_call) = nyc_taxi_edges /\
  (fun '(name, o) => (name, out_mode o)) <$> job_outputs (returned_job first_call) =
    [ ("pipeline_job_prepped_data", Some "rw_mount");
      ("pipeline_job_transformed_data", None);
      ("pipeline_job_trained_model", None);
      ("pipeline_job_test_data", None);
      ("pipeline_job_predictions", None);
      ("pipeline_job_score_report", None) ].
Proof.
  exact (construct_pipeline_job_settings sample_host sample_client
           "cpu-cluster" "azureml:env:1" "run 1" "dev" "build-1" "taxi" "config.json"
           gl_initial _ _ first_call_returns).
Defined.

Lemma construct_pipeline_data_asset_witness :
  exists datasets name asset_id,
    read_datasets sample_host "config.json" = Ok datasets /\
    resolve_dataset_name "dev" datasets = Ok name /\
    data_get sample_client name "latest" = Ok asset_id /\
    given_inputs (returned_job first_call) =
    [ (0%nat, "raw_data", VInput "uri_folder" asset_id);
      (5%nat, "model_name", VStr "taxi");
      (5%nat, "build_reference", VStr "build-1") ].
Proof.
  exact (construct_pipeline_data_asset sample_host sample_client
           "cpu-cluster" "azureml:env:1" "run 1" "dev" "build-1" "taxi" "config.json"
           gl_initial _ _ first_call_returns).
Defined.

(** The sample job reads the data asset registered for [dev]. *)
Example first_call_raw_data :
  given_inputs (returned_job first_call) !! 0%nat
  = Some (0%nat, "raw_data", VInput "uri_folder" "azureml:nyc_taxi_dev:1").
Proof. vm_compute. reflexivity. Qed.

(** ** How the poll loop is left *)

Lemma stops_polling_in_job_status (st : string) :
  stops_polling st = true -> st ∈ job_status.
Proof.
  unfold stops_polling. rewrite !orb_true_iff, !String.eqb_eq.
  intros [[[->| ->]| ->]| ->]; apply list_elem_of_In; cbn; tauto.
Qed.

Lemma in_job_status_not_succeeded (st : string) :
  st ∈ job_status -> succeeded st = false.
Proof.
  intros Hin. apply list_elem_of_In in Hin. cbn in Hin.
  repeat (destruct Hin as [<-|Hin]; [reflexivity|]). destruct Hin.
Qed.

Lemma stops_polling_spec (st : string) :
  stops_polling st = true ->
  st ∈ ["Failed"; "NotResponding"; "CancelRequested"; "Canceled"].
Proof.
  unfold stops_polling. rewrite !orb_true_iff, !String.eqb_eq.
  intros [[[->| ->]| ->]| ->]; apply list_elem_of_In; cbn; tauto.
Qed.

(** The last status seen, by the way the loop was left. *)
Lemma poll_loop_exit_inv (fuel : nat) (svc : service) :
  forall (j : job) (w : Z) (s s' : effects) (ex : loop_exit),
    poll_loop fuel svc j w s = Some (Ok ex, s') ->
    match reason ex with
    | ConditionFalse => status (last_job ex) ∉ job_status
    | StatusBreak => stops_polling (status (last_job ex)) = true
    | TimeoutBreak =>
        status (last_job ex) ∈ job_status /\ total_wait_time < last_wait_time ex
    end.
Proof.
  induction fuel as [|fuel IH]; intros j w s s' ex Hrun; [discriminate Hrun|].
  rewrite poll_loop_unfold in Hrun.
  destruct (bool_decide (status j ∈ job_status)) eqn:Hin.
  2:{ injection Hrun as <- <-. cbn. apply bool_decide_eq_false in Hin. exact Hin. }
  apply bool_decide_eq_true in Hin.
  destruct (w <=? total_wait_time) eqn:Hw.
  2:{ injection Hrun as <- <-. cbn. apply Z.leb_gt in Hw. auto. }
  cbn zeta in Hrun.
  destruct (jobs_get svc (fetches s) (job_name j)) as [j'|e]; [|discriminate Hrun].
  destruct (stops_polling (status j')) eqn:Hstop.
  - injection Hrun as <- <-. cbn. exact Hstop.
  - apply IH in Hrun. exact Hrun.
Qed.

(** After a [break] the last status is one of [job_status], so it is
    neither ["Completed"] nor ["Finished"]. *)
Lemma break_not_succeeded (fuel : nat) (svc : service) (j : job) (w : Z)
  (s s' : effects) (ex : loop_exit) :
  poll_loop fuel svc j w s = Some (Ok ex, s') ->
  reason ex <> ConditionFalse ->
  succeeded (status (last_job ex)) = false.
Proof.
  intros Hloop Hreason. apply in_job_status_not_succeeded.
  pose proof (poll_loop_exit_inv _ _ _ _ _ _ _ Hloop) as Hexit.
  destruct (reason ex); [destruct Hreason; reflexivity | | tauto].
  apply stops_polling_in_job_status. exact Hexit.
Qed.

(** X14: the three ways out of the loop.  When the condition was false the
    last status is outside [job_status]; after the [break] of line 231 it is
    one of ["Failed"], ["NotResponding"], ["CancelRequested"], ["Canceled"];
    after the [break] of line 233 it is still one of [job_status] and the
    counter has passed the budget of 3600. *)
Theorem poll_loop_exit_reason (fuel : nat) (svc : service) (j : job) (w : Z)
  (s s' : effects) (ex : loop_exit) :
  poll_loop fuel svc j w s = Some (Ok ex, s') ->
  (reason ex = ConditionFalse -> status (last_job ex) ∉ job_status) /\
  (reason ex = StatusBreak ->
   status (last_job ex) ∈ ["Failed"; "NotResponding"; "CancelRequested"; "Canceled"]) /\
  (reason ex = TimeoutBreak ->
   status (last_job ex) ∈ job_status /\ 3600 < last_wait_time ex).
Proof.
  intros Hloop. pose proof (poll_loop_exit_inv _ _ _ _ _ _ _ Hloop) as Hexit.
  split; [|split]; intros Hreason; rewrite Hreason in Hexit.
  - exact Hexit.
  - apply stops_polling_spec. exact Hexit.
  - unfold total_wait_time in Hexit. exact Hexit.
Qed.

Lemma poll_loop_exit_reason_witness :
  exists ex s',
    poll_loop 242 pauses_on_second (Job "job_1" "NotStarted") 0 no_effects
    = Some (Ok ex, s') /\
    reason ex = ConditionFalse /\
    status (last_job ex) = "Paused" /\
    status (last_job ex) ∉ job_status.
Proof.
  destruct (poll_loop 242 pauses_on_second (Job "job_1" "NotStarted") 0 no_effects)
    as [[[ex|e] s']|] eqn:Hrun; try (vm_compute in Hrun; discriminate Hrun).
  assert (Hval : reason ex = ConditionFalse /\ status (last_job ex) = "Paused")
    by (vm_compute in Hrun; injection Hrun as <- _; split; reflexivity).
  destruct (poll_loop_exit_reason _ _ _ _ _ _ _ Hrun) as (Hout & _ & _).
  exists ex, s'. split; [reflexivity|]. split; [apply Hval|]. split; [apply Hval|].
  apply Hout, Hval.
Defined.

Section execute_pipeline_outcomes.
Variables (fuel : nat) (svc : service).
Variables subscription_id resource_group_name workspace_name experiment_name : string.
Variables (pj : pipeline_job) (wait_for_completion output_file : option string).

#[local] Abbreviation run_submit :=
  (submit_job svc subscription_id resource_group_name workspace_name experiment_name
     pj output_file).
#[local] Abbreviation run_try :=
  (try_block fuel svc subscription_id resource_group_name workspace_name
     experiment_name pj wait_for_completion output_file).
#[local] Abbreviation run :=
  (execute_pipeline fuel svc subscription_id resource_group_name workspace_name
     experiment_name pj wait_for_completion output_file).

Lemma try_block_not_submitted (s s1 : effects) (e : exn) :
  run_submit s = Some (Raise e, s1) -> run_try s = Some (Raise e, s1).
Proof.
  intros Hsub. unfold try_block, mbind at 1, M_bind at 1. rewrite Hsub. reflexivity.
Qed.

(** X15: a wait that ends by a [break] always ends in the job-failure
    exception: a job that fails, and equally a job that is still in
    progress when the budget is used up, makes [execute_pipeline] raise. *)
Theorem break_raises_job_failure (s s1 s2 : effects) (j : job) (ex : loop_exit) :
  wait_for_completion = Some "True" ->
  run_submit s = Some (Ok j, s1) ->
  poll_loop fuel svc j 0 s1 = Some (Ok ex, s2) ->
  reason ex <> ConditionFalse ->
  run s = Some (Raise job_failure, add_line (handler_line job_failure) s2).
Proof.
  intros Hwait Hsub Hloop Hreason.
  rewrite execute_pipeline_handler,
    (try_block_submitted fuel svc subscription_id resource_group_name
       workspace_name experiment_name pj wait_for_completion output_file _ _ _ Hsub),
    Hwait.
  cbn [wants_wait].
  rewrite String.eqb_refl, Hloop, final_check_spec,
    (break_not_succeeded _ _ _ _ _ _ _ Hloop Hreason).
  reflexivity.
Qed.

(** X16: with [wait_for_completion == "True"], a normal return of
    [execute_pipeline] means that the job was submitted, that the loop was
    left because its condition was false, that the last status seen is
    ["Completed"] or ["Finished"], and that ["job completed"] was the last
    thing printed. *)
Theorem normal_return_means_success (s s' : effects) :
  wait_for_completion = Some "True" ->
  run s = Some (Ok tt, s') ->
  exists j s1 ex s2,
    run_submit s = Some (Ok j, s1) /\
    poll_loop fuel svc j 0 s1 = Some (Ok ex, s2) /\
    reason ex = ConditionFalse /\
    (status (last_job ex) = "Completed" \/ status (last_job ex) = "Finished") /\
    s' = add_line "job completed" s2.
Proof.
  intros Hwait Hrun.
  rewrite execute_pipeline_handler in Hrun.
  assert (Htry : run_try s = Some (Ok tt, s'))
    by (destruct (run_try s) as [[[[]|e] s0]|]; [exact Hrun | discriminate Hrun
                                                 | discriminate Hrun]).
  clear Hrun. rename Htry into Hrun.
  destruct (submit_job_total svc subscription_id resource_group_name workspace_name
              experiment_name pj output_file s) as ([j|e] & s1 & Hsub).
  2:{ rewrite (try_block_not_submitted _ _ _ Hsub) in Hrun. discriminate Hrun. }
  rewrite (try_block_submitted fuel svc subscription_id resource_group_name
             workspace_name experiment_name pj wait_for_completion output_file
             _ _ _ Hsub), Hwait in Hrun.
  cbn [wants_wait] in Hrun. rewrite String.eqb_refl in Hrun.
  destruct (poll_loop fuel svc j 0 s1) as [[[ex|e] s2]|] eqn:Hloop;
    [|discriminate Hrun|discriminate Hrun].
  rewrite final_check_spec in Hrun.
  destruct (succeeded (status (last_job ex))) eqn:Hok; [|discriminate Hrun].
  injection Hrun as <-.
  exists j, s1, ex, s2. repeat split; try reflexivity; try assumption.
  - destruct (reason ex) eqn:Hreason; [reflexivity | |];
      rewrite (break_not_succeeded _ _ _ _ _ _ _ Hloop) in Hok;
      try discriminate Hok; rewrite Hreason; discriminate.
  - unfold succeeded in Hok. apply orb_true_iff in Hok.
    rewrite !String.eqb_eq in Hok. exact Hok.
Qed.

(** X17: whatever the outcome, [execute_pipeline] has slept 20 for each
    status request it made, and it makes at most 241 of them: it never
    sleeps more than 4820 in all. *)
Theorem execute_pipeline_sleep_bound (s s' : effects) (r : result unit) :
  run s = Some (r, s') ->
  exists n : nat,
    (n <= 241)%nat /\
    fetches s' = (fetches s + n)%nat /\
    slept s' = slept s + 20 * Z.of_nat n /\
    slept s' - slept s <= 4820.
Proof.
  intros Hrun.
  assert (Hcore : exists n : nat, (n <= 241)%nat /\ fetches s' = (fetches s + n)%nat /\
                                  slept s' = slept s + 20 * Z.of_nat n).
  2:{ destruct Hcore as (n & Hn & Hf & Hs). exists n. repeat split; try assumption. lia. }
  rewrite execute_pipeline_handler in Hrun.
  destruct (submit_job_total svc subscription_id resource_group_name workspace_name
              experiment_name pj output_file s) as ([j|e] & s1 & Hsub);
    pose proof (submit_job_effects _ _ _ _ _ _ _ _ _ _ Hsub) as [Hf1 Hs1].
  2:{ rewrite (try_block_not_submitted _ _ _ Hsub) in Hrun. injection Hrun as <- <-.
      exists 0%nat. cbn. repeat split; lia. }
  rewrite (try_block_submitted fuel svc subscription_id resource_group_name
             workspace_name experiment_name pj wait_for_completion output_file
             _ _ _ Hsub) in Hrun.
  destruct (wants_wait wait_for_completion).
  2:{ injection Hrun as <- <-. exists 0%nat. repeat split; lia. }
  destruct (poll_loop fuel svc j 0 s1) as [[[ex|e] s2]|] eqn:Hloop;
    [| |discriminate Hrun];
    destruct (poll_loop_effects _ _ _ _ _ _ _ Hloop) as (n & Hf & Hs & _ & Hbound & _);
    unfold total_wait_time in Hbound; exists n.
  - rewrite final_check_spec in Hrun.
    destruct (succeeded (status (last_job ex))); injection Hrun as <- <-; cbn;
      repeat split; lia.
  - injection Hrun as <- <-. cbn. repeat split; lia.
Qed.

End execute_pipeline_outcomes.

Lemma break_raises_job_failure_witness :
  exists s2,
    execute_pipeline 242 always_running "sub" "rg" "ws" "exp" empty_job
      (Some "True") None no_effects
    = Some (Raise job_failure, add_line (handler_line job_failure) s2) /\
    slept s2 = 4820.
Proof.
  pose (s1 := add_line "The job job_1 has been submitted!" no_effects).
  destruct (poll_loop 242 always_running (Job "job_1" "NotStarted") 0 s1)
    as [[[ex|e] s2]|] eqn:Hloop; try (vm_compute in Hloop; discriminate Hloop).
  assert (Hval : reason ex = TimeoutBreak /\ slept s2 = 4820)
    by (vm_compute in Hloop; injection Hloop as <- <-; split; reflexivity).
  exists s2. split; [|apply Hval].
  apply (break_raises_job_failure 242 always_running "sub" "rg" "ws" "exp" empty_job
           (Some "True") None no_effects s1 s2 (Job "job_1" "NotStarted") ex).
  - reflexivity.
  - reflexivity.
  - exact Hloop.
  - destruct Hval as [-> _]. discriminate.
Defined.

Lemma normal_return_means_success_witness :
  exists j s1 ex s2,
    submit_job completes_on_third "sub" "rg" "ws" "exp" empty_job None no_effects
    = Some (Ok j, s1) /\
    poll_loop 242 completes_on_third j 0 s1 = Some (Ok ex, s2) /\
    reason ex = ConditionFalse /\
    (status (last_job ex) = "Completed" \/ status (last_job ex) = "Finished") /\
    Effects [ "The job job_1 has been submitted!"; "Job Status: Running";
              "Job Status: Running"; "Job Status: Completed"; "job completed" ]
            60 3 []
    = add_line "job completed" s2.
Proof.
  apply (normal_return_means_success 242 completes_on_third "sub" "rg" "ws" "exp"
           empty_job (Some "True") None no_effects).
  - reflexivity.
  - vm_compute. reflexivity.
Defined.

Lemma execute_pipeline_sleep_bound_witness :
  exists n : nat,
    (n <= 241)%nat /\
    fetches (effects_of (execute_pipeline 242 always_running "sub" "rg" "ws" "exp"
                           empty_job (Some "True") None no_effects))
    = (0 + n)%nat /\
    slept (effects_of (execute_pipeline 242 always_running "sub" "rg" "ws" "exp"
                         empty_job (Some "True") None no_effects))
    = 0 + 20 * Z.of_nat n /\
    slept (effects_of (execute_pipeline 242 always_running "sub" "rg" "ws" "exp"
                         empty_job (Some "True") None no_effects)) - 0
    <= 4820.
Proof.
  apply (execute_pipeline_sleep_bound 242 always_running "sub" "rg" "ws" "exp"
           empty_job (Some "True") None no_effects _
           (result_of (execute_pipeline 242 always_running "sub" "rg" "ws" "exp"
                         empty_job (Some "True") None no_effects))).
  vm_compute. reflexivity.
Defined.

(** ** Submission and the output file *)

Section execute_pipeline_submission.
Variables (fuel : nat) (svc : service).
Variables subscription_id resource_group_name workspace_name experiment_name : string.
Variables (pj : pipeline_job) (wait_for_completion output_file : option string).

#[local] Abbreviation run_submit :=
  (submit_job svc subscription_id resource_group_name workspace_name experiment_name
     pj output_file).
#[local] Abbreviation run_try :=
  (try_block fuel svc subscription_id resource_group_name workspace_name
     experiment_name pj wait_for_completion output_file).
#[local] Abbreviation run :=
  (execute_pipeline fuel svc subscription_id resource_group_name workspace_name
     experiment_name pj wait_for_completion output_file).

#[local] Abbreviation written :=
  (written_file svc subscription_id resource_group_name workspace_name
     experiment_name pj output_file).

Lemma submit_job_files (s s1 : effects) (r : result job) :
  run_submit s = Some (r, s1) -> files s1 = (files s ++ written)%list.
Proof.
  unfold written_file, submit_job, mbind, M_bind, make_client, submit, print,
    write_file, mret, M_ret.
  destruct (new_client svc _ _ _);
    [intros [= _ <-]; rewrite app_nil_r; reflexivity|].
  destruct (create_or_update svc pj experiment_name) as [j|e];
    [|intros [= _ <-]; rewrite app_nil_r; reflexivity].
  destruct output_file as [path|];
    [|intros [= _ <-]; cbn; rewrite app_nil_r; reflexivity].
  destruct (write_text svc path (job_name j)); intros [= _ <-]; cbn;
    [rewrite app_nil_r|]; reflexivity.
Qed.

(** X18: [execute_pipeline] writes at most one file, the job's name at
    [output_file], and whether it does is settled by the submission alone:
    the file is there whenever client, submission and write succeeded,
    however the wait ends, and no file is written otherwise. *)
Theorem execute_pipeline_files (s s' : effects) (r : result unit) :
  run s = Some (r, s') -> files s' = (files s ++ written)%list.
Proof.
  intros Hrun. rewrite execute_pipeline_handler in Hrun.
  destruct (submit_job_total svc subscription_id resource_group_name workspace_name
              experiment_name pj output_file s) as ([j|e] & s1 & Hsub);
    pose proof (submit_job_files _ _ _ Hsub) as Hfiles.
  2:{ rewrite (try_block_not_submitted fuel svc subscription_id resource_group_name
                 workspace_name experiment_name pj wait_for_completion output_file
                 _ _ _ Hsub) in Hrun.
      injection Hrun as <- <-. exact Hfiles. }
  rewrite (try_block_submitted fuel svc subscription_id resource_group_name
             workspace_name experiment_name pj wait_for_completion output_file
             _ _ _ Hsub) in Hrun.
  destruct (wants_wait wait_for_completion); [|injection Hrun as <- <-; exact Hfiles].
  destruct (poll_loop fuel svc j 0 s1) as [[[ex|e] s2]|] eqn:Hloop;
    [| |discriminate Hrun];
    destruct (poll_loop_effects _ _ _ _ _ _ _ Hloop) as (n & _ & _ & Hsame & _).
  - rewrite final_check_spec in Hrun.
    destruct (succeeded (status (last_job ex))); injection Hrun as <- <-; cbn;
      congruence.
  - injection Hrun as <- <-. cbn. congruence.
Qed.

(** X19: when the client cannot be made, or the submission is refused, the
    exception goes through the handler at once: nothing but the handler's
    line is printed, nothing is written, nothing is polled. *)
Theorem failed_submission_is_not_polled (s : effects) (e : exn) :
  new_client svc subscription_id resource_group_name workspace_name = Some e \/
  (new_client svc subscription_id resource_group_name workspace_name = None /\
   create_or_update svc pj experiment_name = Raise e) ->
  run s = Some (Raise e, add_line (handler_line e) s).
Proof.
  intros Hfail.
  assert (Hsub : run_submit s = Some (Raise e, s)).
  { unfold submit_job, mbind, M_bind, make_client, submit.
    destruct Hfail as [-> | [-> ->]]; reflexivity. }
  rewrite execute_pipeline_handler,
    (try_block_not_submitted fuel svc subscription_id resource_group_name
       workspace_name experiment_name pj wait_for_completion output_file _ _ _ Hsub).
  reflexivity.
Qed.

(** X20: when the output file cannot be written the job has already been
    submitted, and [execute_pipeline] raises the file's exception without
    waiting for the job, even with [wait_for_completion == "True"]. *)
Theorem unwritable_output_file (s : effects) (j : job) (path : string) (e : exn) :
  new_client svc subscription_id resource_group_name workspace_name = None ->
  create_or_update svc pj experiment_name = Ok j ->
  output_file = Some path ->
  write_text svc path (job_name j) = Some e ->
  run s =
  Some (Raise e,
        add_line (handler_line e)
          (add_line ("The job " ++ job_name j ++ " has been submitted!") s)).
Proof.
  intros Hclient Hcreate Hfile Hwrite.
  assert (Hsub : run_submit s =
                 Some (Raise e,
                       add_line ("The job " ++ job_name j ++ " has been submitted!") s)).
  { unfold submit_job, mbind, M_bind, make_client, submit, print, write_file.
    rewrite Hclient, Hcreate, Hfile. cbn. rewrite Hwrite. reflexivity. }
  rewrite execute_pipeline_handler,
    (try_block_not_submitted fuel svc subscription_id resource_group_name
       workspace_name experiment_name pj wait_for_completion output_file _ _ _ Hsub).
  reflexivity.
Qed.

(** X21: when the submitted job's status is already outside [job_status],
    the body of the loop never runs: no sleep, no status request; the
    function returns at once if the status is ["Completed"] or
    ["Finished"] and raises the job-failure exception at once otherwise. *)
Theorem no_poll_when_status_is_final (s s1 : effects) (j : job) :
  (1 <= fuel)%nat ->
  wait_for_completion = Some "True" ->
  run_submit s = Some (Ok j, s1) ->
  status j ∉ job_status ->
  run s =
    (if succeeded (status j)
     then Some (Ok tt, add_line "job completed" s1)
     else Some (Raise job_failure, add_line (handler_line job_failure) s1)) /\
  fetches s1 = fetches s /\ slept s1 = slept s.
Proof.
  intros Hfuel Hwait Hsub Hout.
  split; [|exact (submit_job_effects _ _ _ _ _ _ _ _ _ _ Hsub)].
  rewrite execute_pipeline_handler,
    (try_block_submitted fuel svc subscription_id resource_group_name
       workspace_name experiment_name pj wait_for_completion output_file _ _ _ Hsub),
    Hwait.
  cbn [wants_wait]. rewrite String.eqb_refl.
  destruct fuel as [|fuel']; [lia|].
  rewrite poll_loop_unfold, bool_decide_eq_false_2 by exact Hout.
  rewrite final_check_spec. cbn [last_job].
  destruct (succeeded (status j)); reflexivity.
Qed.

End execute_pipeline_submission.

Lemma execute_pipeline_files_witness :
  files (effects_of (execute_pipeline 242 fails_on_third "sub" "rg" "ws" "exp"
                       empty_job (Some "True") (Some "run_id.txt") no_effects))
  = ([] ++ [("run_id.txt", "job_1")])%list.
Proof.
  apply (execute_pipeline_files 242 fails_on_third "sub" "rg" "ws" "exp" empty_job
           (Some "True") (Some "run_id.txt") no_effects _
           (result_of (execute_pipeline 242 fails_on_third "sub" "rg" "ws" "exp"
                         empty_job (Some "True") (Some "run_id.txt") no_effects))).
  vm_compute. reflexivity.
Defined.

Lemma failed_submission_is_not_polled_witness :
  execute_pipeline 242 refuses_submission "sub" "rg" "ws" "exp" empty_job
    (Some "True") (Some "run_id.txt") no_effects
  = Some (Raise (Exn "HttpResponseError" "quota exceeded"),
          add_line (handler_line (Exn "HttpResponseError" "quota exceeded")) no_effects).
Proof.
  apply (failed_submission_is_not_polled 242 refuses_submission "sub" "rg" "ws" "exp"
           empty_job (Some "True") (Some "run_id.txt") no_effects).
  right. split; reflexivity.
Defined.

Lemma unwritable_output_file_witness :
  execute_pipeline 242 read_only_disk "sub" "rg" "ws" "exp" empty_job
    (Some "True") (Some "run_id.txt") no_effects
  = Some (Raise (Exn "PermissionError" "run_id.txt"),
          add_line (handler_line (Exn "PermissionError" "run_id.txt"))
            (add_line "The job job_1 has been submitted!" no_effects)).
Proof.
  apply (unwritable_output_file 242 read_only_disk "sub" "rg" "ws" "exp" empty_job
           (Some "True") (Some "run_id.txt") no_effects (Job "job_1" "NotStarted")
           "run_id.txt" (Exn "PermissionError" "run_id.txt"));
    reflexivity.
Defined.

Lemma no_poll_when_status_is_final_witness :
  execute_pipeline 1 completed_at_once "sub" "rg" "ws" "exp" empty_job
    (Some "True") None no_effects
  = Some (Ok tt,
          add_line "job completed"
            (add_line "The job job_1 has been submitted!" no_effects)).
Proof.
  apply (no_poll_when_status_is_final 1 completed_at_once "sub" "rg" "ws" "exp"
           empty_job (Some "True") None no_effects
           (add_line "The job job_1 has been submitted!" no_effects)
           (Job "job_1" "Completed")).
  - lia.
  - reflexivity.
  - reflexivity.
  - intros Hin. apply list_elem_of_In in Hin. cbn in Hin.
    repeat (destruct Hin as [Hin|Hin]; [discriminate Hin|]). destruct Hin.
Defined.

(** ** [prepare_and_execute] *)

Section prepare_and_execute_call.
Variables (fuel : nat) (p : platform) (h : host) (svc : service).
Variables subscription_id resource_group_name workspace_name : string.
Variables cluster_name cluster_size cluster_region : string.
Variables min_instances max_instances idle_time_before_scale_down : Z.
Variables env_base_image_name conda_path environment_name env_description : string.
Variable wait_for_completion : option string.
Variables display experiment_name deploy_environment build_reference model_name : string.
Variables (output_file : option string) (data_config_path : string).

#[local] Abbreviation prepare gl s :=
  (prepare_and_execute fuel p h svc subscription_id resource_group_name workspace_name
     cluster_name cluster_size cluster_region
     min_instances max_instances idle_time_before_scale_down
     env_base_image_name conda_path environment_name env_description
     wait_for_completion display experiment_name deploy_environment build_reference
     model_name output_file data_config_path gl s).
#[local] Abbreviation the_client :=
  (workspace_client p subscription_id resource_group_name workspace_name).
#[local] Abbreviation the_compute :=
  (get_compute p subscription_id resource_group_name workspace_name
     cluster_name cluster_size cluster_region
     min_instances max_instances idle_time_before_scale_down).
#[local] Abbreviation the_environment :=
  (get_environment p subscription_id resource_group_name workspace_name
     env_base_image_name conda_path environment_name env_description).

(** X22: a failure of the workspace client, of [get_compute] or of
    [get_environment] ends [prepare_and_execute] with that exception before
    anything is printed, loaded, appended or submitted; the handler of
    [execute_pipeline] is not involved. *)
Theorem prepare_and_execute_setup_error (gl : list component) (s : effects) (e : exn) :
  the_client = Raise e \/
  (exists client, the_client = Ok client /\
     (the_compute = Raise e \/
      exists compute, the_compute = Ok compute /\ the_environment = Raise e)) ->
  prepare gl s = (Some (Raise e, s), gl).
Proof.
  unfold prepare_and_execute.
  intros [-> | (client & -> & [-> | (compute & -> & ->)])]; reflexivity.
Qed.

(** X23: when [construct_pipeline] raises, for instance on a missing config
    file or a dataset the workspace does not know, [prepare_and_execute]
    ends with that exception: only the environment line has been printed,
    the handler's line has not, no job is submitted, nothing is written or
    polled, and the module-level list is as [construct_pipeline] left it,
    unchanged or six components longer. *)
Theorem prepare_and_execute_construct_error (gl gl' : list component) (s : effects)
  (client : ml_client) (compute : compute) (registered : registered_environment)
  (e : exn) :
  the_client = Ok client ->
  the_compute = Ok compute ->
  the_environment = Ok registered ->
  construct_pipeline h (compute_name compute) (environment_reference registered)
    display deploy_environment build_reference model_name data_config_path client gl
  = (Raise e, gl') ->
  prepare gl s = (Some (Raise e, add_line (environment_line registered) s), gl') /\
  (gl' = gl \/ exists six, length six = 6%nat /\ gl' = (gl ++ six)%list).
Proof.
  intros Hclient Hcompute Henv Hconstruct. split.
  - unfold prepare_and_execute. rewrite Hclient, Hcompute, Henv, Hconstruct.
    reflexivity.
  - exact (construct_pipeline_raise _ _ _ _ _ _ _ _ _ _ _ _ Hconstruct).
Qed.

(** X24: when the preparation succeeds, the job that [prepare_and_execute]
    hands to [execute_pipeline] targets the compute that [get_compute]
    named, the six components appended to the module-level list run in the
    environment [azureml:<name>:<version>] that [get_environment] answered,
    and the outcome of the call is that of [execute_pipeline], run after
    the environment line has been printed. *)
Theorem prepare_and_execute_runs_job (gl gl' : list component) (s : effects)
  (client : ml_client) (compute : compute) (registered : registered_environment)
  (job : pipeline_job) :
  the_client = Ok client ->
  the_compute = Ok compute ->
  the_environment = Ok registered ->
  construct_pipeline h (compute_name compute) (environment_reference registered)
    display deploy_environment build_reference model_name data_config_path client gl
  = (Ok job, gl') ->
  prepare gl s =
    (execute_pipeline fuel svc subscription_id resource_group_name workspace_name
       experiment_name job wait_for_completion output_file
       (add_line (environment_line registered) s),
     gl') /\
  default_compute job = Some (compute_name compute) /\
  exists six,
    gl' = (gl ++ six)%list /\ length six = 6%nat /\
    Forall (fun c => environment c = environment_reference registered) six.
Proof.
  intros Hclient Hcompute Henv Hconstruct. split; [|split].
  - unfold prepare_and_execute. rewrite Hclient, Hcompute, Henv, Hconstruct.
    reflexivity.
  - apply construct_pipeline_inv in Hconstruct.
    destruct Hconstruct as (asset & loaded & built & _ & _ & _ & ->). reflexivity.
  - apply construct_pipeline_inv in Hconstruct.
    destruct Hconstruct as (asset & loaded & built & Hload & -> & _).
    apply load_components_inv in Hload.
    destruct Hload as (datasets & name & c0 & c1 & c2 & c3 & c4 & c5 & Hrest).
    destruct Hrest as (_ & _ & _ & _ & _ & _ & _ & _ & _ & ->).
    eexists. split; [reflexivity|]. split; [reflexivity|].
    repeat constructor.
Qed.

End prepare_and_execute_call.

Lemma prepare_and_execute_setup_error_witness :
  prepare_and_execute 242 platform_without_quota sample_host completes_on_third
    "sub" "rg" "ws" "cpu-cluster" "STANDARD_DS3_V2" "westeurope" 0 4 1800
    "ubuntu" "conda.yml" "taxi-env" "Environment created using Conda."
    (Some "True") "run 1" "exp" "dev" "build-1" "taxi" (Some "run_id.txt") "config.json"
    gl_initial no_effects
  = (Some (Raise (Exn "QuotaExceeded" "no cores left"), no_effects), gl_initial).
Proof.
  apply (prepare_and_execute_setup_error 242 platform_without_quota sample_host
           completes_on_third).
  right. exists sample_client. split; [reflexivity|]. left. reflexivity.
Defined.

Lemma prepare_and_execute_construct_error_witness :
  prepare_and_execute 242 sample_platform host_without_config completes_on_third
    "sub" "rg" "ws" "cpu-cluster" "STANDARD_DS3_V2" "westeurope" 0 4 1800
    "ubuntu" "conda.yml" "taxi-env" "Environment created using Conda."
    (Some "True") "run 1" "exp" "dev" "build-1" "taxi" (Some "run_id.txt") "config.json"
    gl_initial no_effects
  = (Some (Raise (Exn "FileNotFoundError" "config.json"),
           add_line "Environment: taxi-env, version: 3" no_effects),
     gl_initial).
Proof.
  apply (prepare_and_execute_construct_error 242 sample_platform host_without_config
           completes_on_third
           "sub" "rg" "ws" "cpu-cluster" "STANDARD_DS3_V2" "westeurope" 0 4 1800
           "ubuntu" "conda.yml" "taxi-env" "Environment created using Conda."
           (Some "True") "run 1" "exp" "dev" "build-1" "taxi" (Some "run_id.txt")
           "config.json" gl_initial gl_initial no_effects
           sample_client (Compute "cpu-cluster") (RegisteredEnvironment "taxi-env" "3"));
    reflexivity.
Defined.

(** A job that the SDK rejects at line 134 is not submitted either, and the
    six components loaded for it stay in the list. *)
Example prepare_and_execute_rejected_job :
  (fun out => (fst out, length (snd out)))
    (prepare_and_execute 242 sample_platform host_with_old_register completes_on_third
       "sub" "rg" "ws" "cpu-cluster" "STANDARD_DS3_V2" "westeurope" 0 4 1800
       "ubuntu" "conda.yml" "taxi-env" "Environment created using Conda."
       (Some "True") "run 1" "exp" "dev" "build-1" "taxi" (Some "run_id.txt")
       "config.json" gl_initial no_effects)
  = (Some (Raise (Exn "UnexpectedKeywordError" "unexpected keyword build_reference"),
           add_line "Environment: taxi-env, version: 3" no_effects),
     6%nat).
Proof. vm_compute. reflexivity. Qed.

Lemma prepared_call_returns :
  prepared_call = (Ok (returned_job prepared_call), snd prepared_call).
Proof. vm_compute. reflexivity. Defined.

Lemma prepare_and_execute_runs_job_witness :
  result_of
    (fst (prepare_and_execute 242 sample_platform sample_host completes_on_third
            "sub" "rg" "ws" "cpu-cluster" "STANDARD_DS3_V2" "westeurope" 0 4 1800
            "ubuntu" "conda.yml" "taxi-env" "Environment created using Conda."
            (Some "True") "run 1" "exp" "dev" "build-1" "taxi" (Some "run_id.txt")
            "config.json" gl_initial no_effects))
  = Ok tt /\
  default_compute (returned_job prepared_call) = Some "cpu-cluster" /\
  Forall (fun c => environment c = "azureml:taxi-env:3") (snd prepared_call).
Proof.
  destruct (prepare_and_execute_runs_job 242 sample_platform sample_host
              completes_on_third
              "sub" "rg" "ws" "cpu-cluster" "STANDARD_DS3_V2" "westeurope" 0 4 1800
              "ubuntu" "conda.yml" "taxi-env" "Environment created using Conda."
              (Some "True") "run 1" "exp" "dev" "build-1" "taxi" (Some "run_id.txt")
              "config.json" gl_initial (snd prepared_call) no_effects
              sample_client (Compute "cpu-cluster") (RegisteredEnvironment "taxi-env" "3")
              (returned_job prepared_call) eq_refl eq_refl eq_refl prepared_call_returns)
    as (Hrun & Hcompute & six & Hgl & _ & Henv).
  split; [rewrite Hrun; vm_compute; reflexivity|]. split; [exact Hcompute|].
  rewrite Hgl. exact Henv.
Defined.

(** What the whole run prints and writes when the job completes. *)
Example prepare_and_execute_output :
  (fun out => (printed (effects_of out), files (effects_of out)))
    (fst (prepare_and_execute 242 sample_platform sample_host completes_on_third
            "sub" "rg" "ws" "cpu-cluster" "STANDARD_DS3_V2" "westeurope" 0 4 1800
            "ubuntu" "conda.yml" "taxi-env" "Environment created using Conda."
            (Some "True") "run 1" "exp" "dev" "build-1" "taxi" (Some "run_id.txt")
            "config.json" gl_initial no_effects))
  = ([ "Environment: taxi-env, version: 3"; "The job job_1 has been submitted!";
       "Job Status: Running"; "Job Status: Running"; "Job Status: Completed";
       "job completed" ],
     [("run_id.txt", "job_1")]).
Proof. vm_compute. reflexivity. Qed.
